(** * dcct_webplot: the range-selection and exponential-fit controller

    A shallow embedding of [operations.py]: the range normaliser
    [ensure_normal_range], the point-selection loop shared by the two
    triggers, the model function [fit_function], and the two controller
    entry points [fit_curve] (the "Fit Exponential" button) and
    [fake_fit_curve] (the plot's Reset tool).

    Numbers.  The program computes on Python floats; the specification
    speaks of reals.  Every finite float is a rational, so numbers are
    modelled as [Q] with its exact order; NaN and the infinities are outside
    the model, and so is rounding.  What the numerical libraries compute
    ([np.exp], [math.log(2)], the ["%.4f"] formatter and the least-squares
    iterations behind [curve_fit]) is taken as a parameter.

    Line 161 of the source is not well-formed (a doubled comma); the
    value of its right-hand side is a parameter too, and no statement
    depends on a repair of it.

    The page.  A series has been loaded ([xList] and [yList] exist), and
    the four entries of a stored rectangle are numbers or the JSON text of
    numbers, which [float(...)] reads back. *)

From Stdlib Require Import QArith Qround Qabs ZArith String DecimalString List Bool Lia Lqa.
Import ListNotations.

Local Open Scope Q_scope.

(** ** Python values and exceptions *)

Inductive exn : Type :=
| IndexError
| TypeError
| ValueError
| RuntimeError.

Inductive result (A : Type) : Type :=
| Return (a : A)
| Raise (e : exn).

Arguments Return {A} a.
Arguments Raise {A} e.

Definition rbind {A B : Type} (c : result A) (k : A -> result B) : result B :=
  match c with
  | Return a => k a
  | Raise e => Raise e
  end.

Declare Scope py_scope.
Delimit Scope py_scope with py.
Notation "x <~ c ; k" := (rbind c (fun x => k))
  (at level 61, c at next level, right associativity) : py_scope.

(** [a < b] and [a > b] on numbers, as booleans. *)
Definition ltb (a b : Q) : bool := negb (Qle_bool b a).
Definition gtb (a b : Q) : bool := ltb b a.

(** [int(x)]: truncation towards zero. *)
Definition int (x : Q) : Z := Z.quot (Qnum x) (Z.pos (Qden x)).

(** [a[i]] for [i >= 0], and [a[-1]]. *)
Definition getitem (a : list Q) (i : nat) : result Q :=
  match nth_error a i with
  | Some v => Return v
  | None => Raise IndexError
  end.

Definition getitem_last (a : list Q) : result Q :=
  match a with
  | [] => Raise IndexError
  | v :: a' => Return (last a' v)
  end.

(** [min(a)]. *)
Definition pymin (a : list Q) : result Q :=
  match a with
  | [] => Raise ValueError
  | v :: a' => Return (fold_left (fun m y => if ltb y m then y else m) a' v)
  end.

(** ** RangeNormalizer *)

Definition rect : Type := (Q * Q * Q * Q)%type.

Definition ensure_normal_range (x0 x1 y0 y1 : Q) : rect :=
  let '(x0, x1) := if gtb x0 x1 then (x1, x0) else (x0, x1) in
  let '(y0, y1) := if gtb y0 y1 then (y1, y0) else (y0, y1) in
  (x0, x1, y0, y1).

(** ** SelectionFilter: the loop of lines 146-155 and 197-206 *)

(** [for i in range(n): acc = body(acc, i)], stopping at the first
    exception. *)
Fixpoint for_range {A : Type} (body : A -> nat -> result A)
    (idx : list nat) (acc : A) : result A :=
  match idx with
  | [] => Return acc
  | i :: idx' =>
      match body acc i with
      | Return acc' => for_range body idx' acc'
      | Raise e => Raise e
      end
  end.

Definition select_step (xList yList : list Q) (x0 x1 y0 y1 : Q)
    (acc : list Q * list Q) (i : nat) : result (list Q * list Q) :=
  (x <~ getitem xList i ;
   y <~ getitem yList i ;
   if ltb x x0 || gtb x x1 then Return acc
   else if ltb y y0 || gtb y y1 then Return acc
   else Return (fst acc ++ [x], snd acc ++ [y]))%py.

Definition select_points (xList yList : list Q) (x0 x1 y0 y1 : Q)
    : result (list Q * list Q) :=
  for_range (select_step xList yList x0 x1 y0 y1)
            (seq 0 (length xList)) ([], []).

(** The selection as the specification words it: the samples of the series
    that lie in the closed rectangle, in series order. *)
Definition in_rect (r : rect) (p : Q * Q) : Prop :=
  let '(xmin, xmax, ymin, ymax) := r in
  (xmin <= fst p /\ fst p <= xmax) /\ (ymin <= snd p /\ snd p <= ymax).

Definition in_rectb (r : rect) (p : Q * Q) : bool :=
  let '(xmin, xmax, ymin, ymax) := r in
  (Qle_bool xmin (fst p) && Qle_bool (fst p) xmax)
  && (Qle_bool ymin (snd p) && Qle_bool (snd p) ymax).

Definition select_spec (series : list (Q * Q)) (r : rect) : list (Q * Q) :=
  filter (in_rectb r) series.

(** [l1] is [l2] with some elements dropped, order kept. *)
Inductive subsequence {A : Type} : list A -> list A -> Prop :=
| subseq_nil : subsequence [] []
| subseq_skip a l1 l2 : subsequence l1 l2 -> subsequence l1 (a :: l2)
| subseq_keep a l1 l2 : subsequence l1 l2 -> subsequence (a :: l1) (a :: l2).

(** ** The page state

    [window.range_data] is written by the plot's RangesUpdate callback (a
    JavaScript array of the four bounds as JSON text); the controller reads
    it and writes [window.old_range_data], the "previous rectangle".  What
    the controller publishes goes to the DOM elements [hint-area],
    [result-area-1..3] and [graph-area], and to [alert]. *)

Inductive jsval : Type :=
| PyNone                          (* None, line 188 *)
| JsArray (id : nat) (r : rect)   (* value_list of the RangesUpdate callback *)
| PyList (r : rect).              (* [fx0, fx1, fy0, fy1], line 144 *)

Record Plot : Type := mkPlot {
  plot_x : list Q;
  plot_y : list Q;
  x_for_line : list Q;
  y_for_line : list Q;
  x_range : option (Q * Q);
  y_range : option (Q * Q)
}.

Record State : Type := mkState {
  range_data : option jsval;        (* None: window has no such attribute *)
  old_range_data : option jsval;
  xList : list Q;
  yList : list Q;
  alerts : list string;             (* messages shown so far, oldest first *)
  hint_area : string;               (* style.display of hint-area *)
  result_area_1 : string;
  result_area_2 : string;
  result_area_3 : string;
  graph_area : option Plot
}.

Definition with_old_range_data (v : jsval) (s : State) : State :=
  mkState (range_data s) (Some v) (xList s) (yList s) (alerts s)
          (hint_area s) (result_area_1 s) (result_area_2 s) (result_area_3 s)
          (graph_area s).

Definition with_range_data (v : jsval) (s : State) : State :=
  mkState (Some v) (old_range_data s) (xList s) (yList s) (alerts s)
          (hint_area s) (result_area_1 s) (result_area_2 s) (result_area_3 s)
          (graph_area s).

Definition with_alert (msg : string) (s : State) : State :=
  mkState (range_data s) (old_range_data s) (xList s) (yList s)
          (alerts s ++ [msg])
          (hint_area s) (result_area_1 s) (result_area_2 s) (result_area_3 s)
          (graph_area s).

Definition with_hint_area (d : string) (s : State) : State :=
  mkState (range_data s) (old_range_data s) (xList s) (yList s) (alerts s)
          d (result_area_1 s) (result_area_2 s) (result_area_3 s)
          (graph_area s).

Definition with_result_area_1 (t : string) (s : State) : State :=
  mkState (range_data s) (old_range_data s) (xList s) (yList s) (alerts s)
          (hint_area s) t (result_area_2 s) (result_area_3 s) (graph_area s).

Definition with_result_area_2 (t : string) (s : State) : State :=
  mkState (range_data s) (old_range_data s) (xList s) (yList s) (alerts s)
          (hint_area s) (result_area_1 s) t (result_area_3 s) (graph_area s).

Definition with_result_area_3 (t : string) (s : State) : State :=
  mkState (range_data s) (old_range_data s) (xList s) (yList s) (alerts s)
          (hint_area s) (result_area_1 s) (result_area_2 s) t (graph_area s).

Definition with_graph_area (p : Plot) (s : State) : State :=
  mkState (range_data s) (old_range_data s) (xList s) (yList s) (alerts s)
          (hint_area s) (result_area_1 s) (result_area_2 s) (result_area_3 s)
          (Some p).

(** Statements that run on the page: a result, and the state left behind
    (what was written before an exception stays written). *)
Definition M (A : Type) : Type := State -> result A * State.

Definition ret {A : Type} (a : A) : M A := fun s => (Return a, s).

Definition bind {A B : Type} (c : M A) (k : A -> M B) : M B :=
  fun s =>
    match c s with
    | (Return a, s') => k a s'
    | (Raise e, s') => (Raise e, s')
    end.

Definition lift {A : Type} (r : result A) : M A := fun s => (r, s).
Definition gets {A : Type} (f : State -> A) : M A := fun s => (Return (f s), s).
Definition modify (f : State -> State) : M unit := fun s => (Return tt, f s).

Notation "x <- c ;; k" := (bind c (fun x => k))
  (at level 61, c at next level, right associativity) : py_scope.
Notation "' pat <- c ;; k" := (bind c (fun x => match x with pat => k end))
  (at level 61, pat pattern, c at next level, right associativity) : py_scope.
Notation "c ;; k" := (bind c (fun _ => k))
  (at level 61, right associativity) : py_scope.

Definition alert (msg : string) : M unit := modify (with_alert msg).

(** Equality of stored values, [operator.eq].  Two Python lists are equal
    when their entries are; two JavaScript arrays when they are the same
    object, which [id] stands for (every RangesUpdate event makes a new
    array, none is ever written to, and line 192 stores the array itself);
    a list, an array and [None] differ from each other. *)
Definition Q_eqb (a b : Q) : bool :=
  (Qnum a =? Qnum b)%Z && (Qden a =? Qden b)%positive.

Definition rect_eqb (r r' : rect) : bool :=
  let '(a, b, c, d) := r in
  let '(a', b', c', d') := r' in
  Q_eqb a a' && Q_eqb b b' && Q_eqb c c' && Q_eqb d d'.

Definition operator_eq (v v' : jsval) : bool :=
  match v, v' with
  | PyNone, PyNone => true
  | JsArray i r, JsArray i' r' => (i =? i')%nat && rect_eqb r r'
  | PyList r, PyList r' => rect_eqb r r'
  | _, _ => false
  end.

(** [float(v[0]), float(v[1]), float(v[2]), float(v[3])]. *)
Definition floats (v : jsval) : result rect :=
  match v with
  | PyNone => Raise TypeError
  | JsArray _ r => Return r
  | PyList r => Return r
  end.

(** [xList[0], xList[-1], yList[0], yList[-1]], line 138. *)
Definition data_extent (xs ys : list Q) : result rect :=
  (fx0 <~ getitem xs 0 ;
   fx1 <~ getitem_last xs ;
   fy0 <~ getitem ys 0 ;
   fy1 <~ getitem_last ys ;
   Return (fx0, fx1, fy0, fy1))%py.

(** The test of lines 139-142. *)
Definition same_int_bounds (r f : rect) : bool :=
  let '(x0, x1, y0, y1) := r in
  let '(fx0, fx1, fy0, fy1) := f in
  ((int x0 =? int fx0) && (int x1 =? int fx1)
   && (int y0 =? int fy0) && (int y1 =? int fy1))%Z.

Definition my_plot (x y x_for_line y_for_line : list Q)
    (x_range y_range : option (Q * Q)) : M unit :=
  modify (with_graph_area (mkPlot x y x_for_line y_for_line x_range y_range)).

Definition NO_RANGE : string := "Please select a certain range of data firstly".
Definition NO_DATA : string :=
  "Please select a certain area containing some valid data".

Section Controller.

(** The numerical collaborators. *)
Variable np_exp : Q -> Q.                (* np.exp *)
Variable log_2 : Q.                      (* math.log(2) *)
Variable fmt4 : Q -> string.             (* "%.4f" % v *)
(** The least-squares iterations behind [curve_fit]: from the model, the
    data and the initial guess to [popt] and [ier], or an exception. *)
Variable leastsq :
  (list Q -> list Q -> result (list Q)) ->
  list Q -> list Q -> list Q -> result (list Q * Z).
(** The right-hand side of line 161.  As committed it reads
    [[y_list_selection[0], x_list_selection[-1] - x_list_selection[0],
    ,min(y_list_selection)]], which is not an expression of the language;
    no repair is chosen here: what it is to evaluate to on the two
    selected arrays, a list or an exception, is a parameter. *)
Variable reset_guess : list Q -> list Q -> result (list Q).

(** [fit_function(x, *p)], on an array [x].  At [p[1] = 0] numpy's
    quotient is infinite or not a number, which [Q] has no value for:
    nothing below states what the model function returns there. *)
Definition fit_function (x : list Q) (p : list Q) : result (list Q) :=
  (p0 <~ getitem p 0 ;
   p1 <~ getitem p 1 ;
   p2 <~ getitem p 2 ;
   Return (map (fun xi => p0 * np_exp (- xi / p1) + p2) x))%py.

(** [curve_fit(f, xdata, ydata, p0=p0, full_output=True)]: the optimizer
    evaluates the model at the initial guess before it iterates, and an
    exception of the model propagates. *)
Definition curve_fit (f : list Q -> list Q -> result (list Q))
    (xdata ydata p0 : list Q) : result (list Q * Z) :=
  (_ <~ f xdata p0 ;
   leastsq f xdata ydata p0)%py.

(** ["%.4f" % (1.0 / tau)], lines 171 and 222.  [tau] is a numpy scalar:
    at zero the quotient does not raise, it is infinite and is printed as
    [inf] (as [-inf] at the float's negative zero, which [Q] does not
    have). *)
Definition rate_text (tau : Q) : string :=
  if Qeq_bool tau 0 then "inf" else fmt4 (1 / tau).

(** Lines 164-171 and 215-222, the same text in both triggers. *)
Definition publish (tau : Q) (ier : Z) : M unit :=
  ((if negb (ier =? 1)%Z
    then modify (with_hint_area "")
    else modify (with_hint_area "none")) ;;
   modify (with_result_area_1 (fmt4 tau)) ;;
   modify (with_result_area_2 (fmt4 (tau * log_2))) ;;
   modify (with_result_area_3 (rate_text tau)))%py.

(** Lines 156-172: steps 3 and 4 of [fake_fit_curve], with line 161 as
    the parameter [reset_guess]. *)
Definition fake_fit_selection (sel : list Q * list Q) : M unit :=
  let '(x_list_selection, y_list_selection) := sel in
  if (length x_list_selection =? 0)%nat then ret tt
  else
    (p0 <- lift (reset_guess x_list_selection y_list_selection) ;;
     '(popt, ier) <-
        lift (curve_fit fit_function x_list_selection y_list_selection p0) ;;
     tau <- lift (getitem popt 1) ;;
     publish tau ier ;;
     q0 <- lift (getitem popt 0) ;;
     q1 <- lift (getitem popt 1) ;;
     q2 <- lift (getitem popt 2) ;;
     y_for_line <- lift (fit_function x_list_selection [q0; q1; q2]) ;;
     xs <- gets xList ;;
     ys <- gets yList ;;
     my_plot xs ys x_list_selection y_for_line None None)%py.

Definition fake_fit_curve : M unit :=
  (cur <- gets range_data ;;
   match cur with
   | None => alert NO_RANGE
   | Some _ =>
     old <- gets old_range_data ;;
     match old with
     | None => ret tt
     | Some old_value_list =>
       '(x0, x1, y0, y1) <- lift (floats old_value_list) ;;
       xs <- gets xList ;;
       ys <- gets yList ;;
       '(fx0, fx1, fy0, fy1) <- lift (data_extent xs ys) ;;
       if same_int_bounds (x0, x1, y0, y1) (fx0, fx1, fy0, fy1)
       then ret tt
       else
         modify (with_old_range_data (PyList (fx0, fx1, fy0, fy1))) ;;
         let '(x0, x1, y0, y1) := ensure_normal_range x0 x1 y0 y1 in
         sel <- lift (select_points xs ys x0 x1 y0 y1) ;;
         fake_fit_selection sel
     end
   end)%py.

(** Lines 207-223: steps 3 and 4 of [fit_curve]. *)
Definition fit_selection (x0 x1 y0 y1 : Q) (sel : list Q * list Q) : M unit :=
  let '(x_list_selection, y_list_selection) := sel in
  if (length x_list_selection =? 0)%nat then alert NO_DATA
  else
    (a0 <- lift (getitem y_list_selection 0) ;;
     xl <- lift (getitem_last x_list_selection) ;;
     xf <- lift (getitem x_list_selection 0) ;;
     let p0 := [a0; xl - xf] in
     '(popt, ier) <-
        lift (curve_fit fit_function x_list_selection y_list_selection p0) ;;
     tau <- lift (getitem popt 1) ;;
     publish tau ier ;;
     q0 <- lift (getitem popt 0) ;;
     q1 <- lift (getitem popt 1) ;;
     q2 <- lift (getitem popt 2) ;;
     y_for_line <- lift (fit_function x_list_selection [q0; q1; q2]) ;;
     xs <- gets xList ;;
     ys <- gets yList ;;
     my_plot xs ys x_list_selection y_for_line
             (Some (x0, x1)) (Some (y0, y1)))%py.

Definition fit_curve : M unit :=
  (cur <- gets range_data ;;
   match cur with
   | None => alert NO_RANGE
   | Some value_list =>
     old <- gets old_range_data ;;
     old_value <- match old with
                  | None => modify (with_old_range_data PyNone) ;; ret PyNone
                  | Some v => ret v
                  end ;;
     if operator_eq old_value value_list then ret tt
     else
       modify (with_old_range_data value_list) ;;
       '(x0, x1, y0, y1) <- lift (floats value_list) ;;
       let '(x0, x1, y0, y1) := ensure_normal_range x0 x1 y0 y1 in
       xs <- gets xList ;;
       ys <- gets yList ;;
       sel <- lift (select_points xs ys x0 x1 y0 y1) ;;
       fit_selection x0 x1 y0 y1 sel
   end)%py.

(** The page after lines 164-171 (215-222) have run on [s]. *)
Definition published (tau : Q) (ier : Z) (s : State) : State :=
  with_result_area_3 (rate_text tau)
    (with_result_area_2 (fmt4 (tau * log_2))
      (with_result_area_1 (fmt4 tau)
        (with_hint_area (if negb (ier =? 1)%Z then "" else "none") s))).

(** What steps 3 and 4 of a trigger can leave of the page [s] they start
    from: nothing changed, the "no data" notice, published values, or
    published values and a new graph. *)
Inductive outcome (s : State) : State -> Prop :=
| untouched : outcome s s
| noticed : outcome s (with_alert NO_DATA s)
| shown tau ier : outcome s (published tau ier s)
| drawn tau ier p : outcome s (with_graph_area p (published tau ier s)).

(** The first two published values of [s'] are those of [s], or some tau
    and its half-life. *)
Definition half_life_published (s s' : State) : Prop :=
  (result_area_1 s' = result_area_1 s /\ result_area_2 s' = result_area_2 s)
  \/ exists tau,
       result_area_1 s' = fmt4 tau /\ result_area_2 s' = fmt4 (tau * log_2).

End Controller.

(** ** A concrete page, to run the controller on

    Stand-ins for the numerical collaborators: a rational approximation of
    the exponential, [math.log(2)] to sixteen digits, a decimal formatter,
    and an optimizer that stops at the initial guess and reports [ier = 2]
    (and, like the library, refuses fewer points than parameters). *)

Definition exp_approx (x : Q) : Q := 1 / (1 - x + x * x / 2).

Definition LOG_2 : Q := 6931471805599453 # 10000000000000000.

Definition round_half_even (t : Q) : Z :=
  let f := Qfloor t in
  match Qcompare (t - inject_Z f) (1 # 2) with
  | Lt => f
  | Gt => (f + 1)%Z
  | Eq => if Z.even f then f else (f + 1)%Z
  end.

Definition digit (d : Z) : string :=
  String (Ascii.ascii_of_nat (48 + Z.to_nat d)) EmptyString.

Definition format_4f (v : Q) : string :=
  let n := round_half_even (Qabs v * 10000) in
  let frac := (n mod 10000)%Z in
  ((if ltb v 0 then "-" else "")
   ++ DecimalString.NilZero.string_of_int (Z.to_int (n / 10000))
   ++ "."
   ++ digit (frac / 1000) ++ digit (frac / 100 mod 10)
   ++ digit (frac / 10 mod 10) ++ digit (frac mod 10))%string.

Definition initial_guess_optimizer
    (f : list Q -> list Q -> result (list Q))
    (xdata ydata p0 : list Q) : result (list Q * Z) :=
  if (length xdata <? length p0)%nat then Raise TypeError
  else Return (p0, 2%Z).

(** One reading of line 161, with the stray comma dropped: the three
    entries written there. *)
Definition three_entry_guess (x_list_selection y_list_selection : list Q)
    : result (list Q) :=
  (a0 <~ getitem y_list_selection 0 ;
   xl <~ getitem_last x_list_selection ;
   xf <~ getitem x_list_selection 0 ;
   c0 <~ pymin y_list_selection ;
   Return [a0; xl - xf; c0])%py.

(** The series of the specification's examples. *)
Definition decay_x : list Q := [0; 1; 2; 3; 4; 5].
Definition decay_y : list Q := [100; 60; 37; 22; 13; 8].

Definition page (cur old : option jsval) : State :=
  mkState cur old decay_x decay_y []
          "none" "1.6000" "1.1090" "0.6250" None.

(** Two selections on that series: one around every sample, one above all
    of them. *)
Definition all_points : rect := (0, 5, 0, 100).
Definition no_points : rect := (0, 5, 1000, 2000).

(** The arrays of two RangesUpdate events with these bounds. *)
Definition view_all : jsval := JsArray 1 all_points.
Definition view_none : jsval := JsArray 2 no_points.

Definition demo_fit_curve : M unit :=
  fit_curve exp_approx LOG_2 format_4f initial_guess_optimizer.

Definition demo_fake_fit_curve : M unit :=
  fake_fit_curve exp_approx LOG_2 format_4f initial_guess_optimizer
                 three_entry_guess.

(** The page with published values, the rectangle around every sample
    stored as the previous one and the rectangle above all samples as the
    current one; and the same page once the manual trigger has run on that
    empty selection. *)
Definition page_reselected : State :=
  page (Some view_none) (Some view_all).

Definition page_before_reset : State :=
  page (Some view_none) (Some view_none).

(** A two-sample series from [x = xs] to [y = [0, 100]] with a given
    previous rectangle. *)
Definition two_samples (xs : list Q) (prev : jsval) : State :=
  mkState (Some view_all) (Some prev) xs [0; 100] []
          "none" "" "" "" None.

(** ** Loading a series: lines 226-244 and 269-290 *)

Definition with_series (xs ys : list Q) (s : State) : State :=
  mkState (range_data s) (old_range_data s) xs ys (alerts s)
          (hint_area s) (result_area_1 s) (result_area_2 s) (result_area_3 s)
          (graph_area s).

(** What [np.genfromtxt] returns: a table of several rows and several
    columns comes back two-dimensional (with [unpack=True], one entry per
    column); a table of one row or of one column comes back as one array of
    numbers; a single number as an array without dimension. *)
Inductive ndarray : Type :=
| Array0 (v : Q)
| Array1 (v : list Q)
| Array2 (columns : list (list Q)).

(** How a call of the loader ends: as [r] on the page [s]; or, returning
    normally, with [xList] and [yList] two numbers instead of two arrays
    and the plot drawn from them, a state of the globals that the page
    record does not hold (the rest of the page is as before). *)
Inductive csv_outcome : Type :=
| Ended (r : result unit) (s : State)
| Numbers (x y : Q).

Section Loading.

(** [np.genfromtxt(sIO, delimiter="|", skip_header=1, unpack=True)], or
    its exception. *)
Variable genfromtxt : string -> result ndarray.

(** The assignment [[xList, yList] = ...] iterates over the array and
    needs exactly two entries: two columns of a two-dimensional array, or
    the two numbers of a one-dimensional one; an array without dimension
    cannot be iterated over. *)
Definition handle_csv_stringio (sIO : string) (s : State) : csv_outcome :=
  match genfromtxt sIO with
  | Raise e => Ended (Raise e) s
  | Return (Array2 [xs; ys]) =>
      let '(r, s') :=
        (modify (with_series xs ys) ;;
         xs <- gets xList ;;
         ys <- gets yList ;;
         my_plot xs ys [] [] None None)%py s in
      Ended r s'
  | Return (Array1 [x; y]) => Numbers x y
  | Return (Array0 _) => Ended (Raise TypeError) s
  | Return _ => Ended (Raise ValueError) s
  end.

(** [StringIO(csvStr)] holds the text it is given. *)
Definition handle_csv_string (csvStr : string) (s : State) : csv_outcome :=
  handle_csv_stringio csvStr s.

End Loading.

(** An XY-curve block of a [.tdf] file, as the reader decodes it. *)
Record Curve : Type := mkCurve {
  get_xvalues : list Q;
  get_yvalues : list Q;
  get_xaxis_title : string;
  get_yaxis_title : string;
  title : string
}.

(** What [read_tdf_from_file] ends in: the returned tuple, or the
    [UnboundLocalError] of [x_label] when the loop never assigned it. *)
Inductive tdf_outcome : Type :=
| Returned (xs ys : list Q) (x_label y_label title : string)
| UnboundLocalError.

Section Tdf.

(** The reader library: the directory of a file, the test on a directory
    entry, and the block read at an entry's position
    ([stream.seek(block.get_pos()); stream.next_block()]). *)
Variable block : Type.
Variable get_directory : string -> list block.
Variable is_xycurve_block : block -> bool.
Variable next_block : block -> Curve.

(** One turn of the loop of lines 280-289: the labels assigned so far, and
    the page with its series. *)
Definition read_block (acc : option (string * string * string) * State)
    (b : block) : option (string * string * string) * State :=
  if is_xycurve_block b then
    let nb := next_block b in
    (Some (get_xaxis_title nb, get_yaxis_title nb, title nb),
     with_series (get_xvalues nb) (get_yvalues nb) (snd acc))
  else acc.

Definition read_tdf_from_file (filename : string)
    : State -> tdf_outcome * State :=
  fun s =>
    let '(labels, s') :=
      fold_left read_block (get_directory filename) (None, s) in
    match labels with
    | Some (x_label, y_label, t) =>
        (Returned (xList s') (yList s') x_label y_label t, s')
    | None => (UnboundLocalError, s')
    end.

End Tdf.

(** A point lies between two corner coordinates, in either order. *)
Definition between (a b v : Q) : Prop :=
  (a <= v /\ v <= b) \/ (b <= v /\ v <= a).

(** A stand-in for the table reader: it knows one file, the
    specification's series with a header line, and refuses any other
    text. *)
Definition newline : string := String (Ascii.ascii_of_nat 10) EmptyString.

Definition decay_csv : string :=
  ("t|n" ++ newline ++ "0|100" ++ newline ++ "1|60" ++ newline ++ "2|37"
   ++ newline ++ "3|22" ++ newline ++ "4|13" ++ newline ++ "5|8")%string.

Definition one_file_reader (text : string) : result ndarray :=
  if String.eqb text decay_csv then Return (Array2 [decay_x; decay_y])
  else Raise ValueError.

(** The page of [page_reselected] with no sample at all. *)
Definition empty_page : State :=
  mkState (Some view_none) (Some view_all) [] [] [] "none" "" "" "" None.

(** ** Facts about the pure part *)

Lemma ltb_false_iff (a b : Q) : ltb a b = false <-> b <= a.
Proof.
  unfold ltb. rewrite negb_false_iff. apply Qle_bool_iff.
Qed.

Lemma ltb_true_iff (a b : Q) : ltb a b = true <-> a < b.
Proof.
  unfold ltb. rewrite negb_true_iff. split; intro H.
  - apply Qnot_le_lt. intro Hle. apply Qle_bool_iff in Hle. congruence.
  - destruct (Qle_bool b a) eqn:E; [|reflexivity].
    apply Qle_bool_iff in E. exfalso. exact (Qlt_not_le _ _ H E).
Qed.

Lemma in_rectb_iff (r : rect) (p : Q * Q) : in_rectb r p = true <-> in_rect r p.
Proof.
  destruct r as [[[xmin xmax] ymin] ymax]. unfold in_rectb, in_rect.
  rewrite !andb_true_iff, !Qle_bool_iff. reflexivity.
Qed.

(** The two tests of the loop body keep a sample exactly when it is in the
    closed rectangle. *)
Lemma loop_tests_in_rectb (x y x0 x1 y0 y1 : Q) :
  (if ltb x x0 || gtb x x1 then false
   else if ltb y y0 || gtb y y1 then false else true)
  = in_rectb (x0, x1, y0, y1) (x, y).
Proof.
  unfold in_rectb, gtb, ltb; simpl.
  destruct (Qle_bool x0 x), (Qle_bool x x1), (Qle_bool y0 y), (Qle_bool y y1);
    reflexivity.
Qed.

Lemma select_step_as_filter (pre_x pre_y xs ys : list Q) (x y x0 x1 y0 y1 : Q)
    (acc : list Q * list Q) :
  length pre_x = length pre_y ->
  select_step (pre_x ++ x :: xs) (pre_y ++ y :: ys) x0 x1 y0 y1 acc (length pre_x)
  = Return (if in_rectb (x0, x1, y0, y1) (x, y)
            then (fst acc ++ [x], snd acc ++ [y]) else acc).
Proof.
  intro Hlen. unfold select_step, getitem.
  rewrite nth_error_app2 by lia. rewrite Nat.sub_diag.
  rewrite Hlen.
  rewrite nth_error_app2 by lia. rewrite Nat.sub_diag.
  cbn [nth_error rbind].
  rewrite <- loop_tests_in_rectb.
  destruct (ltb x x0 || gtb x x1); [reflexivity|].
  destruct (ltb y y0 || gtb y y1); reflexivity.
Qed.

Lemma for_range_select (xs ys : list Q) (x0 x1 y0 y1 : Q) :
  forall (pre_x pre_y : list Q) (acc : list Q * list Q),
  length pre_x = length pre_y ->
  length xs = length ys ->
  for_range (select_step (pre_x ++ xs) (pre_y ++ ys) x0 x1 y0 y1)
            (seq (length pre_x) (length xs)) acc
  = Return (fst acc ++ map fst (select_spec (combine xs ys) (x0, x1, y0, y1)),
            snd acc ++ map snd (select_spec (combine xs ys) (x0, x1, y0, y1))).
Proof.
  revert ys. induction xs as [|x xs IH]; intros [|y ys] pre_x pre_y acc Hpre Hlen;
    simpl in Hlen; try discriminate.
  - simpl. rewrite !app_nil_r. destruct acc; reflexivity.
  - simpl seq. simpl for_range.
    rewrite select_step_as_filter by assumption.
    replace (pre_x ++ x :: xs) with ((pre_x ++ [x]) ++ xs)
      by (rewrite <- app_assoc; reflexivity).
    replace (pre_y ++ y :: ys) with ((pre_y ++ [y]) ++ ys)
      by (rewrite <- app_assoc; reflexivity).
    replace (S (length pre_x)) with (length (pre_x ++ [x]))
      by (rewrite length_app; simpl; lia).
    rewrite IH.
    + unfold select_spec. cbn [combine filter].
      destruct (in_rectb (x0, x1, y0, y1) (x, y)); cbn [fst snd map].
      * rewrite <- !app_assoc. reflexivity.
      * reflexivity.
    + rewrite !length_app. simpl. lia.
    + lia.
Qed.

Lemma select_points_refines (xs ys : list Q) (x0 x1 y0 y1 : Q) :
  length xs = length ys ->
  select_points xs ys x0 x1 y0 y1
  = Return (map fst (select_spec (combine xs ys) (x0, x1, y0, y1)),
            map snd (select_spec (combine xs ys) (x0, x1, y0, y1))).
Proof.
  intro Hlen. unfold select_points.
  exact (for_range_select xs ys x0 x1 y0 y1 [] [] ([], []) eq_refl Hlen).
Qed.

Lemma filter_subsequence {A : Type} (f : A -> bool) (l : list A) :
  subsequence (filter f l) l.
Proof.
  induction l as [|a l IH]; simpl.
  - constructor.
  - destruct (f a); constructor; assumption.
Qed.

Lemma filter_none {A : Type} (f : A -> bool) (l : list A) :
  (forall a, In a l -> f a = false) -> filter f l = [].
Proof.
  induction l as [|a l IH]; simpl; intro H; [reflexivity|].
  rewrite (H a (or_introl eq_refl)). apply IH. intros b Hb. apply H. now right.
Qed.


Example format_4f_examples :
  format_4f (8 # 5) = "1.6000"%string
  /\ format_4f ((8 # 5) * LOG_2) = "1.1090"%string
  /\ format_4f (1 / (8 # 5)) = "0.6250"%string
  /\ format_4f (- (1 # 100000)) = "-0.0000"%string
  /\ format_4f (12345 # 100000) = "0.1234"%string.
Proof. vm_compute. repeat split. Qed.

Lemma gtb_false_iff (a b : Q) : gtb a b = false <-> a <= b.
Proof. unfold gtb. apply ltb_false_iff. Qed.

Lemma gtb_true_iff (a b : Q) : gtb a b = true <-> b < a.
Proof. unfold gtb. apply ltb_true_iff. Qed.

(** One axis of the normaliser: the pair comes out ordered, is the input
    pair or its swap, and a second pass leaves it alone. *)
Lemma swap_if_greater (a b : Q) :
  let p := if gtb a b then (b, a) else (a, b) in
  fst p <= snd p
  /\ (p = (a, b) \/ p = (b, a))
  /\ gtb (fst p) (snd p) = false
  /\ (a <= b -> p = (a, b)).
Proof.
  destruct (gtb a b) eqn:E; simpl.
  - apply gtb_true_iff in E. pose proof (Qlt_le_weak _ _ E) as Hle.
    repeat split.
    + exact Hle.
    + now right.
    + now apply gtb_false_iff.
    + intro Hab. exfalso. exact (Qlt_not_le _ _ E Hab).
  - pose proof E as Hle. apply gtb_false_iff in Hle.
    repeat split; auto.
Qed.

(** C8. For all inputs [ensure_normal_range] returns [(xmin, xmax, ymin,
    ymax)] with [xmin <= xmax] and [ymin <= ymax]; each axis pair is the
    input pair, possibly swapped; normalising the output again changes
    nothing; and an input that is already ordered is returned as it is. *)
Theorem ensure_normal_range_normalizes (x0 x1 y0 y1 : Q) :
  exists xmin xmax ymin ymax,
    ensure_normal_range x0 x1 y0 y1 = (xmin, xmax, ymin, ymax)
    /\ xmin <= xmax /\ ymin <= ymax
    /\ ((xmin, xmax) = (x0, x1) \/ (xmin, xmax) = (x1, x0))
    /\ ((ymin, ymax) = (y0, y1) \/ (ymin, ymax) = (y1, y0))
    /\ ensure_normal_range xmin xmax ymin ymax = (xmin, xmax, ymin, ymax)
    /\ (x0 <= x1 -> y0 <= y1 ->
        ensure_normal_range x0 x1 y0 y1 = (x0, x1, y0, y1)).
Proof.
  destruct (swap_if_greater x0 x1) as (Hx & Hxs & Hxi & Hxid).
  destruct (swap_if_greater y0 y1) as (Hy & Hys & Hyi & Hyid).
  unfold ensure_normal_range.
  destruct (if gtb x0 x1 then (x1, x0) else (x0, x1)) as [xmin xmax].
  destruct (if gtb y0 y1 then (y1, y0) else (y0, y1)) as [ymin ymax].
  simpl in *.
  exists xmin, xmax, ymin, ymax.
  rewrite Hxi, Hyi.
  repeat split; auto.
  intros Hx01 Hy01.
  injection (Hxid Hx01) as -> ->. injection (Hyid Hy01) as -> ->. reflexivity.
Qed.

(** The normaliser on a corner-swapped and on an ordered rectangle. *)
Lemma ensure_normal_range_normalizes_witness :
  ensure_normal_range 5 0 2000 1000 = (0, 5, 1000, 2000)
  /\ ensure_normal_range 0 5 1000 2000 = (0, 5, 1000, 2000).
Proof.
  split.
  - reflexivity.
  - destruct (ensure_normal_range_normalizes 0 5 1000 2000)
      as (a & b & c & d & _ & _ & _ & _ & _ & _ & Hid).
    apply Hid; discriminate.
Defined.

(** C7. On a series whose two arrays have the same length, the selection
    loop does not raise and returns exactly the samples [(x, y)] with
    [xmin <= x <= xmax] and [ymin <= y <= ymax], all four bounds inclusive,
    in the order of the series; when no sample qualifies the result is the
    empty selection. *)
Theorem select_points_inclusive_ordered (xs ys : list Q) (x0 x1 y0 y1 : Q) :
  length xs = length ys ->
  exists sel : list (Q * Q),
    select_points xs ys x0 x1 y0 y1 = Return (map fst sel, map snd sel)
    /\ sel = select_spec (combine xs ys) (x0, x1, y0, y1)
    /\ (forall p, In p sel <->
                  In p (combine xs ys) /\ in_rect (x0, x1, y0, y1) p)
    /\ subsequence sel (combine xs ys)
    /\ ((forall p, In p (combine xs ys) -> ~ in_rect (x0, x1, y0, y1) p) ->
        select_points xs ys x0 x1 y0 y1 = Return ([], [])).
Proof.
  intro Hlen.
  exists (select_spec (combine xs ys) (x0, x1, y0, y1)).
  split; [apply select_points_refines; exact Hlen|].
  split; [reflexivity|].
  split; [|split].
  - intro p. unfold select_spec. rewrite filter_In, in_rectb_iff. reflexivity.
  - apply filter_subsequence.
  - intro Hnone. rewrite select_points_refines by exact Hlen.
    unfold select_spec. rewrite filter_none; [reflexivity|].
    intros p Hp. destruct (in_rectb (x0, x1, y0, y1) p) eqn:E; [|reflexivity].
    apply in_rectb_iff in E. exfalso. exact (Hnone p Hp E).
Qed.

(** The specification's series under a rectangle with samples on its
    edges: [(1, 60)] lies on [xmin] and [ymax], [(4, 13)] on [xmax] and
    [ymin]. *)
Lemma select_points_inclusive_ordered_witness :
  length decay_x = length decay_y
  /\ select_points decay_x decay_y 1 4 13 60
     = Return ([1; 2; 3; 4], [60; 37; 22; 13]).
Proof.
  split; [reflexivity|].
  destruct (select_points_inclusive_ordered decay_x decay_y 1 4 13 60 eq_refl)
    as (sel & Hrun & Hsel & _).
  rewrite Hrun, Hsel. reflexivity.
Defined.

(** ** Stored values *)

Lemma Q_eqb_eq (a b : Q) : Q_eqb a b = true <-> a = b.
Proof.
  destruct a as [n d], b as [n' d']. unfold Q_eqb. simpl.
  rewrite andb_true_iff, Z.eqb_eq, Pos.eqb_eq.
  split; [intros [-> ->]; reflexivity | intro H; injection H; auto].
Qed.

Lemma rect_eqb_eq (r r' : rect) : rect_eqb r r' = true <-> r = r'.
Proof.
  destruct r as [[[a b] c] d], r' as [[[a' b'] c'] d']. unfold rect_eqb.
  rewrite !andb_true_iff, !Q_eqb_eq.
  split; [intros [[[-> ->] ->] ->]; reflexivity | intro H; injection H; auto].
Qed.

Lemma operator_eq_eq (v v' : jsval) : operator_eq v v' = true <-> v = v'.
Proof.
  destruct v, v'; simpl;
    try rewrite andb_true_iff, Nat.eqb_eq; try rewrite rect_eqb_eq;
    split; intro H; try discriminate; try reflexivity;
    try (destruct H; congruence); try (injection H; auto); congruence.
Qed.

Lemma operator_eq_refl (v : jsval) : operator_eq v v = true.
Proof. now apply operator_eq_eq. Qed.

Lemma operator_eq_neq (v v' : jsval) : v <> v' -> operator_eq v v' = false.
Proof.
  intro H. destruct (operator_eq v v') eqn:E; [|reflexivity].
  apply operator_eq_eq in E. contradiction.
Qed.

Lemma same_int_bounds_refl (r : rect) : same_int_bounds r r = true.
Proof.
  destruct r as [[[a b] c] d]. unfold same_int_bounds.
  rewrite !Z.eqb_refl. reflexivity.
Qed.

Lemma same_int_bounds_trans (r1 r2 r3 : rect) :
  same_int_bounds r1 r2 = true -> same_int_bounds r2 r3 = true ->
  same_int_bounds r1 r3 = true.
Proof.
  destruct r1 as [[[a1 b1] c1] d1], r2 as [[[a2 b2] c2] d2],
           r3 as [[[a3 b3] c3] d3].
  unfold same_int_bounds. rewrite !andb_true_iff, !Z.eqb_eq.
  intros [[[-> ->] ->] ->] [[[-> ->] ->] ->]. auto.
Qed.

(** A value that [float(...)] accepts is not [None]. *)
Lemma floats_Return_not_None (v : jsval) (r : rect) :
  floats v = Return r -> v <> PyNone.
Proof. intros H ->. discriminate. Qed.

Lemma not_None_floats (v : jsval) :
  v <> PyNone -> exists r, floats v = Return r.
Proof. destruct v; [contradiction| |]; intros _; eexists; reflexivity. Qed.

Lemma floats_PyList (r : rect) : floats (PyList r) = Return r.
Proof. reflexivity. Qed.

(** ** The controller, for any numerical collaborators *)

Section ControllerFacts.

Variable np_exp : Q -> Q.
Variable log_2 : Q.
Variable fmt4 : Q -> string.
Variable leastsq :
  (list Q -> list Q -> result (list Q)) ->
  list Q -> list Q -> list Q -> result (list Q * Z).
Variable reset_guess : list Q -> list Q -> result (list Q).

Local Abbreviation fit_function' := (fit_function np_exp).
Local Abbreviation curve_fit' := (curve_fit leastsq).
Local Abbreviation publish' := (publish log_2 fmt4).
Local Abbreviation published' := (published log_2 fmt4).
Local Abbreviation outcome' := (outcome log_2 fmt4).
Local Abbreviation fake_fit_selection' :=
  (fake_fit_selection np_exp log_2 fmt4 leastsq reset_guess).
Local Abbreviation fit_selection' := (fit_selection np_exp log_2 fmt4 leastsq).
Local Abbreviation fake_fit_curve' :=
  (fake_fit_curve np_exp log_2 fmt4 leastsq reset_guess).
Local Abbreviation fit_curve' := (fit_curve np_exp log_2 fmt4 leastsq).
Local Abbreviation half_life_published' := (half_life_published log_2 fmt4).

Lemma publish_run (tau : Q) (ier : Z) (s : State) :
  publish' tau ier s = (Return tt, published' tau ier s).
Proof.
  unfold publish, published, bind, modify. destruct (ier =? 1)%Z; reflexivity.
Qed.

(** The model indexes [p[2]]: two parameters are one too few. *)
Lemma fit_function_two_parameters (x : list Q) (a0 tau0 : Q) :
  fit_function' x [a0; tau0] = Raise IndexError.
Proof. reflexivity. Qed.

Lemma fit_function_three_parameters (x : list Q) (a tau c : Q) :
  fit_function' x [a; tau; c]
  = Return (map (fun xi => a * np_exp (- xi / tau) + c) x).
Proof. reflexivity. Qed.

Lemma curve_fit_two_parameters (x y : Q) (xdata ydata : list Q)
    (a0 tau0 : Q) :
  curve_fit' fit_function' (x :: xdata) (y :: ydata) [a0; tau0]
  = Raise IndexError.
Proof. reflexivity. Qed.

(** Runs a trigger's steps 3 and 4 through every result they depend on. *)
Ltac run_steps :=
  unfold bind, lift, gets, my_plot, modify, alert, ret;
  repeat match goal with
  | |- context [publish _ _ _ _ _] => rewrite publish_run
  | |- context [match ?r with Return _ => _ | Raise _ => _ end] =>
      destruct r as [?|?]
  | |- context [let '(_, _) := ?p in _] => destruct p
  end;
  cbn [fst snd].

Lemma fake_fit_selection_outcome (sel : list Q * list Q) (s : State) :
  outcome' s (snd (fake_fit_selection' sel s)).
Proof.
  destruct sel as [xsel ysel]. unfold fake_fit_selection.
  destruct (length xsel =? 0)%nat; [apply untouched|].
  run_steps; solve [apply untouched | apply shown | apply drawn].
Qed.

Lemma fit_selection_outcome (x0 x1 y0 y1 : Q) (sel : list Q * list Q)
    (s : State) :
  outcome' s (snd (fit_selection' x0 x1 y0 y1 sel s)).
Proof.
  destruct sel as [xsel ysel]. unfold fit_selection.
  destruct (length xsel =? 0)%nat; [apply noticed|].
  run_steps; solve [apply untouched | apply shown | apply drawn].
Qed.

(** Steps 3 and 4 write neither [window] attribute nor the series. *)
Lemma outcome_frame (s s' : State) :
  outcome' s s' ->
  range_data s' = range_data s /\ old_range_data s' = old_range_data s
  /\ xList s' = xList s /\ yList s' = yList s.
Proof. intros []; repeat split. Qed.

(** The manual trigger never gets past its optimizer call. *)
Lemma fit_selection_nonempty (x0 x1 y0 y1 x y : Q) (xsel ysel : list Q)
    (s : State) :
  fit_selection' x0 x1 y0 y1 (x :: xsel, y :: ysel) s = (Raise IndexError, s).
Proof. reflexivity. Qed.

Lemma fit_selection_empty (x0 x1 y0 y1 : Q) (ysel : list Q) (s : State) :
  fit_selection' x0 x1 y0 y1 ([], ysel) s = (Return tt, with_alert NO_DATA s).
Proof. reflexivity. Qed.

Lemma fake_fit_selection_empty (ysel : list Q) (s : State) :
  fake_fit_selection' ([], ysel) s = (Return tt, s).
Proof. reflexivity. Qed.

(** *** The change checks *)

Lemma fit_curve_gate_closed (s : State) (v : jsval) :
  range_data s = Some v -> old_range_data s = Some v ->
  fit_curve' s = (Return tt, s).
Proof.
  intros Hcur Hold. unfold fit_curve, bind, gets, ret.
  rewrite Hcur, Hold, operator_eq_refl. reflexivity.
Qed.

Lemma fit_curve_gate_open (s : State) (v : jsval)
    (x0 x1 y0 y1 xmin xmax ymin ymax : Q) :
  range_data s = Some v -> old_range_data s <> Some v ->
  floats v = Return (x0, x1, y0, y1) ->
  ensure_normal_range x0 x1 y0 y1 = (xmin, xmax, ymin, ymax) ->
  fit_curve' s
  = bind (lift (select_points (xList s) (yList s) xmin xmax ymin ymax))
         (fit_selection' xmin xmax ymin ymax)
         (with_old_range_data v s).
Proof.
  intros Hcur Hold Hv Hn. unfold fit_curve, bind, gets, ret, modify, lift.
  rewrite Hcur.
  destruct (old_range_data s) as [o|] eqn:Eo.
  - rewrite operator_eq_neq by congruence. rewrite Hv, Hn. reflexivity.
  - change (operator_eq PyNone v) with
      (match v with PyNone => true | _ => false end).
    destruct v as [|i r|r]; [discriminate Hv| |];
      cbn [floats] in Hv; injection Hv as ->;
      cbn -[ensure_normal_range select_points fit_selection];
      rewrite Hn; reflexivity.
Qed.

Lemma fake_fit_curve_gate_closed (s : State) (cur prev : jsval) (r ext : rect) :
  range_data s = Some cur -> old_range_data s = Some prev ->
  floats prev = Return r ->
  data_extent (xList s) (yList s) = Return ext ->
  same_int_bounds r ext = true ->
  fake_fit_curve' s = (Return tt, s).
Proof.
  intros Hcur Hold Hr Hext Hsame.
  unfold fake_fit_curve, bind, gets, ret, lift.
  rewrite Hcur, Hold, Hr. destruct r as [[[x0 x1] y0] y1].
  rewrite Hext. destruct ext as [[[fx0 fx1] fy0] fy1].
  rewrite Hsame. reflexivity.
Qed.

Lemma fake_fit_curve_gate_open (s : State) (cur prev : jsval)
    (x0 x1 y0 y1 xmin xmax ymin ymax : Q) (ext : rect) :
  range_data s = Some cur -> old_range_data s = Some prev ->
  floats prev = Return (x0, x1, y0, y1) ->
  data_extent (xList s) (yList s) = Return ext ->
  same_int_bounds (x0, x1, y0, y1) ext = false ->
  ensure_normal_range x0 x1 y0 y1 = (xmin, xmax, ymin, ymax) ->
  fake_fit_curve' s
  = bind (lift (select_points (xList s) (yList s) xmin xmax ymin ymax))
         fake_fit_selection'
         (with_old_range_data (PyList ext) s).
Proof.
  intros Hcur Hold Hr Hext Hsame Hn.
  unfold fake_fit_curve, bind, gets, ret, lift, modify.
  rewrite Hcur, Hold, Hr, Hext. destruct ext as [[[fx0 fx1] fy0] fy1].
  rewrite Hsame, Hn. reflexivity.
Qed.


(** Whatever a manual-trigger call does, it leaves the current rectangle
    stored as the previous one. *)
Lemma fit_curve_stores_rectangle (s : State) (v : jsval) :
  range_data s = Some v ->
  range_data (snd (fit_curve' s)) = Some v
  /\ old_range_data (snd (fit_curve' s)) = Some v.
Proof.
  intro Hcur. unfold fit_curve, bind, gets, ret, modify, lift.
  rewrite Hcur.
  destruct (old_range_data s) as [o|] eqn:Eo;
    [ destruct (operator_eq o v) eqn:E
    | destruct (operator_eq PyNone v) eqn:E ];
    try (apply operator_eq_eq in E; subst; cbn; now split).
  all: destruct (floats v) as [[[[x0 x1] y0] y1]|e]; [|cbn; now split].
  all: destruct (ensure_normal_range x0 x1 y0 y1) as [[[x2 x3] y2] y3].
  all: cbn [xList yList with_old_range_data].
  all: destruct (select_points (xList s) (yList s) x2 x3 y2 y3) as [sel|e];
    [|cbn; now split].
  all: match goal with
       | |- context [fit_selection _ _ _ _ ?a ?b ?c ?d ?sel ?st] =>
           destruct (outcome_frame _ _ (fit_selection_outcome a b c d sel st))
             as (Hr & Ho & _); rewrite Hr, Ho
       end; cbn; now split.
Qed.

(** C5. Two successive manual-trigger calls on the same stored rectangle:
    whatever the first call did, it leaves that rectangle stored as the
    previous one, and the second call returns at the change check with the
    page exactly as the first call left it (previous rectangle, published
    values, notices); so does a call on any page that holds the same
    rectangle twice, whatever its series. *)
Theorem fit_curve_same_rectangle_noop (s s1 : State) (v : jsval)
    (out : result unit) :
  range_data s = Some v ->
  fit_curve' s = (out, s1) ->
  old_range_data s1 = Some v
  /\ fit_curve' s1 = (Return tt, s1)
  /\ (forall s2, range_data s2 = Some v -> old_range_data s2 = Some v ->
                 fit_curve' s2 = (Return tt, s2)).
Proof.
  intros Hcur Hrun.
  destruct (fit_curve_stores_rectangle s v Hcur) as (Hr & Ho).
  rewrite Hrun in Hr, Ho. cbn [snd] in Hr, Ho.
  split; [exact Ho|]. split.
  - exact (fit_curve_gate_closed s1 v Hr Ho).
  - intros s2. apply fit_curve_gate_closed.
Qed.

(** C1, as the code has it. A manual-trigger call whose rectangle differs
    from the stored previous one and selects no point shows the "no data"
    notice and returns; the series and everything published (tau,
    half-life, rate, warning flag, graph) are as before, and the previous
    rectangle is now the current one. *)
Theorem fit_curve_empty_selection (s : State) (v : jsval)
    (x0 x1 y0 y1 xmin xmax ymin ymax : Q) (ysel : list Q) :
  range_data s = Some v ->
  old_range_data s <> Some v ->
  floats v = Return (x0, x1, y0, y1) ->
  ensure_normal_range x0 x1 y0 y1 = (xmin, xmax, ymin, ymax) ->
  select_points (xList s) (yList s) xmin xmax ymin ymax = Return ([], ysel) ->
  fit_curve' s = (Return tt, with_alert NO_DATA (with_old_range_data v s)).
Proof.
  intros Hcur Hold Hv Hn Hsel.
  rewrite (fit_curve_gate_open s v x0 x1 y0 y1 xmin xmax ymin ymax)
    by assumption.
  unfold bind, lift. cbn [xList yList with_old_range_data].
  rewrite Hsel. apply fit_selection_empty.
Qed.

(** C2, as the code has it. A reset-trigger call that passes the change
    check and selects no point returns without a notice, without calling
    the optimizer (whatever it is) and without publishing; the previous
    rectangle is now the extent of the series. *)
Theorem fake_fit_curve_empty_selection (s : State) (cur prev : jsval)
    (x0 x1 y0 y1 xmin xmax ymin ymax : Q) (ext : rect) (ysel : list Q) :
  range_data s = Some cur ->
  old_range_data s = Some prev ->
  floats prev = Return (x0, x1, y0, y1) ->
  data_extent (xList s) (yList s) = Return ext ->
  same_int_bounds (x0, x1, y0, y1) ext = false ->
  ensure_normal_range x0 x1 y0 y1 = (xmin, xmax, ymin, ymax) ->
  select_points (xList s) (yList s) xmin xmax ymin ymax = Return ([], ysel) ->
  fake_fit_curve' s = (Return tt, with_old_range_data (PyList ext) s).
Proof.
  intros Hcur Hold Hr Hext Hsame Hn Hsel.
  rewrite (fake_fit_curve_gate_open s cur prev x0 x1 y0 y1 xmin xmax ymin ymax ext)
    by assumption.
  unfold bind, lift. cbn [xList yList with_old_range_data].
  rewrite Hsel. apply fake_fit_selection_empty.
Qed.

(** After a reset-trigger call that found a usable previous rectangle, the
    stored previous rectangle has the integer bounds of the series'
    extent. *)
Lemma fake_fit_curve_stores_extent (s : State) (cur : jsval) (ext : rect) :
  range_data s = Some cur ->
  (forall o, old_range_data s = Some o -> o <> PyNone) ->
  data_extent (xList s) (yList s) = Return ext ->
  old_range_data (snd (fake_fit_curve' s)) = None
  \/ exists prev r,
       old_range_data (snd (fake_fit_curve' s)) = Some prev
       /\ floats prev = Return r /\ same_int_bounds r ext = true.
Proof.
  intros Hcur Hnn Hext.
  destruct (old_range_data s) as [o|] eqn:Eo.
  - right. destruct (not_None_floats o (Hnn o eq_refl)) as [r Hr].
    destruct (same_int_bounds r ext) eqn:Hsame.
    + rewrite (fake_fit_curve_gate_closed s cur o r ext) by assumption.
      exists o, r. auto.
    + destruct r as [[[x0 x1] y0] y1].
      destruct (ensure_normal_range x0 x1 y0 y1) as [[[x2 x3] y2] y3] eqn:Hn.
      rewrite (fake_fit_curve_gate_open s cur o x0 x1 y0 y1 x2 x3 y2 y3 ext)
        by assumption.
      exists (PyList ext), ext.
      split; [|split; [reflexivity | apply same_int_bounds_refl]].
      unfold bind, lift.
      destruct (select_points _ _ x2 x3 y2 y3) as [sel|e]; [|reflexivity].
      destruct (outcome_frame _ _
                  (fake_fit_selection_outcome sel
                     (with_old_range_data (PyList ext) s))) as (_ & Ho & _).
      exact Ho.
  - left. unfold fake_fit_curve, bind, gets, ret. rewrite Hcur, Eo. exact Eo.
Qed.

(** C3. The reset trigger's change check is equality of the integer parts
    of the four bounds. On a page [s2] with a selection and a series of
    extent [ext2]: if the stored previous rectangle has the integer bounds
    of [ext2], the call changes nothing and returns; and so it is when [s2]
    holds what an earlier reset-trigger call left as previous rectangle,
    that call having seen an extent [ext] with the integer bounds of
    [ext2]. *)
Theorem fake_fit_curve_same_integer_bounds_noop (s2 : State) (cur2 : jsval)
    (ext2 : rect) :
  range_data s2 = Some cur2 ->
  data_extent (xList s2) (yList s2) = Return ext2 ->
  (forall prev r,
      old_range_data s2 = Some prev -> floats prev = Return r ->
      same_int_bounds r ext2 = true ->
      fake_fit_curve' s2 = (Return tt, s2))
  /\ (forall s cur ext,
        range_data s = Some cur ->
        (forall o, old_range_data s = Some o -> o <> PyNone) ->
        data_extent (xList s) (yList s) = Return ext ->
        old_range_data s2 = old_range_data (snd (fake_fit_curve' s)) ->
        same_int_bounds ext ext2 = true ->
        fake_fit_curve' s2 = (Return tt, s2)).
Proof.
  intros Hcur2 Hext2. split.
  - intros prev r Hold Hr Hsame.
    exact (fake_fit_curve_gate_closed s2 cur2 prev r ext2
             Hcur2 Hold Hr Hext2 Hsame).
  - intros s cur ext Hcur Hnn Hext Hold Hsame.
    destruct (fake_fit_curve_stores_extent s cur ext Hcur Hnn Hext)
      as [Hnone | (prev & r & Hprev & Hr & Hsame')].
    + unfold fake_fit_curve, bind, gets, ret.
      rewrite Hcur2, Hold, Hnone. reflexivity.
    + apply (fake_fit_curve_gate_closed s2 cur2 prev r ext2); try assumption.
      * congruence.
      * exact (same_int_bounds_trans r ext ext2 Hsame' Hsame).
Qed.


(** *** What the reset trigger reads *)

Lemma fake_fit_selection_ignores_range_data (sel : list Q * list Q)
    (c : jsval) (s : State) :
  fake_fit_selection' sel (with_range_data c s)
  = (fst (fake_fit_selection' sel s),
     with_range_data c (snd (fake_fit_selection' sel s))).
Proof.
  destruct sel as [xsel ysel]. unfold fake_fit_selection.
  destruct (length xsel =? 0)%nat; [reflexivity|].
  run_steps; reflexivity.
Qed.

Lemma fake_fit_curve_ignores_range_data (s : State) (cur c : jsval) :
  range_data s = Some cur ->
  fake_fit_curve' (with_range_data c s)
  = (fst (fake_fit_curve' s), with_range_data c (snd (fake_fit_curve' s))).
Proof.
  intro Hcur. unfold fake_fit_curve, bind, gets, ret, lift, modify.
  rewrite Hcur.
  cbn [range_data old_range_data xList yList with_range_data].
  destruct (old_range_data s) as [o|]; [|reflexivity].
  destruct (floats o) as [[[[x0 x1] y0] y1]|e]; [|reflexivity].
  cbn [range_data old_range_data xList yList with_range_data].
  destruct (data_extent (xList s) (yList s)) as [[[[fx0 fx1] fy0] fy1]|e];
    [|reflexivity].
  destruct (same_int_bounds _ _); [reflexivity|].
  destruct (ensure_normal_range x0 x1 y0 y1) as [[[x2 x3] y2] y3].
  cbn [range_data old_range_data xList yList with_range_data].
  destruct (select_points (xList s) (yList s) x2 x3 y2 y3) as [sel|e];
    [|reflexivity].
  exact (fake_fit_selection_ignores_range_data sel c
           (with_old_range_data (PyList (fx0, fx1, fy0, fy1)) s)).
Qed.

(** C4. A reset-trigger call that passes the change check stores the
    extent of the series, [(xList[0], xList[-1], yList[0], yList[-1])], as
    the new previous rectangle and selects the points with the normalised
    previous rectangle; of [window.range_data] it reads nothing but its
    presence: with any other value there, the call gives the same result
    and the same page. *)
Theorem fake_fit_curve_selects_from_previous (s : State) (cur prev : jsval)
    (x0 x1 y0 y1 xmin xmax ymin ymax : Q) (ext : rect) :
  range_data s = Some cur ->
  old_range_data s = Some prev ->
  floats prev = Return (x0, x1, y0, y1) ->
  data_extent (xList s) (yList s) = Return ext ->
  same_int_bounds (x0, x1, y0, y1) ext = false ->
  ensure_normal_range x0 x1 y0 y1 = (xmin, xmax, ymin, ymax) ->
  fake_fit_curve' s
  = bind (lift (select_points (xList s) (yList s) xmin xmax ymin ymax))
         fake_fit_selection'
         (with_old_range_data (PyList ext) s)
  /\ old_range_data (snd (fake_fit_curve' s)) = Some (PyList ext)
  /\ (forall c : jsval,
        fake_fit_curve' (with_range_data c s)
        = (fst (fake_fit_curve' s),
           with_range_data c (snd (fake_fit_curve' s)))).
Proof.
  intros Hcur Hold Hr Hext Hsame Hn.
  pose proof (fake_fit_curve_gate_open s cur prev x0 x1 y0 y1
                xmin xmax ymin ymax ext Hcur Hold Hr Hext Hsame Hn) as Hrun.
  split; [exact Hrun|]. split.
  - rewrite Hrun. unfold bind, lift.
    destruct (select_points _ _ xmin xmax ymin ymax) as [sel|e];
      [|reflexivity].
    destruct (outcome_frame _ _
                (fake_fit_selection_outcome sel
                   (with_old_range_data (PyList ext) s))) as (_ & Ho & _).
    exact Ho.
  - intro c. exact (fake_fit_curve_ignores_range_data s cur c Hcur).
Qed.

(** *** The fit and what is published *)

(** On the manual trigger a non-empty selection ends in the model's
    [IndexError]: the rectangle has been stored, nothing is published. *)
Lemma fit_curve_nonempty_selection_raises (s : State) (v : jsval)
    (x0 x1 y0 y1 xmin xmax ymin ymax x y : Q) (xsel ysel : list Q) :
  range_data s = Some v -> old_range_data s <> Some v ->
  floats v = Return (x0, x1, y0, y1) ->
  ensure_normal_range x0 x1 y0 y1 = (xmin, xmax, ymin, ymax) ->
  select_points (xList s) (yList s) xmin xmax ymin ymax
  = Return (x :: xsel, y :: ysel) ->
  fit_curve' s = (Raise IndexError, with_old_range_data v s).
Proof.
  intros Hcur Hold Hv Hn Hsel.
  rewrite (fit_curve_gate_open s v x0 x1 y0 y1 xmin xmax ymin ymax)
    by assumption.
  unfold bind, lift. cbn [xList yList with_old_range_data].
  rewrite Hsel. apply fit_selection_nonempty.
Qed.

(** C6, on the code. The model function reads a third parameter: with the
    two-parameter guess of the manual trigger it raises [IndexError], so
    does the optimizer call, and the manual trigger on the specification's
    series with every point selected ends in that exception, the rectangle
    stored and nothing published. *)
Theorem fit_curve_model_reads_offset :
  (forall (x : list Q) (a0 tau0 : Q),
      fit_function' x [a0; tau0] = Raise IndexError)
  /\ (forall (x y : Q) (xdata ydata : list Q) (a0 tau0 : Q),
        curve_fit' fit_function' (x :: xdata) (y :: ydata) [a0; tau0]
        = Raise IndexError)
  /\ fit_curve' (page (Some view_all) None)
     = (Raise IndexError,
        with_old_range_data view_all
          (page (Some view_all) None)).
Proof.
  split; [|split].
  - intros. apply fit_function_two_parameters.
  - intros. apply curve_fit_two_parameters.
  - apply (fit_curve_nonempty_selection_raises _ _ 0 5 0 100 0 5 0 100
             0 100 [1; 2; 3; 4; 5] [60; 37; 22; 13; 8]);
      first [reflexivity | discriminate].
Qed.


(** Every call of either trigger runs steps 3 and 4 at most once, on a
    page whose published values are still those it started with. *)
Lemma fit_curve_outcome (s : State) :
  exists st,
    outcome' st (snd (fit_curve' s))
    /\ result_area_1 st = result_area_1 s
    /\ result_area_2 st = result_area_2 s.
Proof.
  unfold fit_curve, bind, gets, ret, lift, modify, alert.
  destruct (range_data s) as [v|];
    [|eexists; split; [apply untouched | split; reflexivity]].
  destruct (old_range_data s) as [o|];
    [ destruct (operator_eq o v) | destruct (operator_eq PyNone v) ];
    try (eexists; split; [apply untouched | split; reflexivity]).
  all: destruct (floats v) as [[[[x0 x1] y0] y1]|e];
    [|eexists; split; [apply untouched | split; reflexivity]].
  all: destruct (ensure_normal_range x0 x1 y0 y1) as [[[x2 x3] y2] y3].
  all: cbn [xList yList with_old_range_data].
  all: destruct (select_points (xList s) (yList s) x2 x3 y2 y3) as [sel|e];
    [|eexists; split; [apply untouched | split; reflexivity]].
  all: eexists; split; [apply fit_selection_outcome | split; reflexivity].
Qed.

Lemma fake_fit_curve_outcome (s : State) :
  exists st,
    outcome' st (snd (fake_fit_curve' s))
    /\ result_area_1 st = result_area_1 s
    /\ result_area_2 st = result_area_2 s.
Proof.
  unfold fake_fit_curve, bind, gets, ret, lift, modify, alert.
  destruct (range_data s) as [v|];
    [|eexists; split; [apply untouched | split; reflexivity]].
  destruct (old_range_data s) as [o|];
    [|eexists; split; [apply untouched | split; reflexivity]].
  destruct (floats o) as [[[[x0 x1] y0] y1]|e];
    [|eexists; split; [apply untouched | split; reflexivity]].
  destruct (data_extent (xList s) (yList s)) as [[[[fx0 fx1] fy0] fy1]|e];
    [|eexists; split; [apply untouched | split; reflexivity]].
  destruct (same_int_bounds _ _);
    [eexists; split; [apply untouched | split; reflexivity]|].
  destruct (ensure_normal_range x0 x1 y0 y1) as [[[x2 x3] y2] y3].
  destruct (select_points (xList s) (yList s) x2 x3 y2 y3) as [sel|e];
    [|eexists; split; [apply untouched | split; reflexivity]].
  eexists; split; [apply fake_fit_selection_outcome | split; reflexivity].
Qed.

Lemma outcome_half_life (s st s' : State) :
  outcome' st s' ->
  result_area_1 st = result_area_1 s ->
  result_area_2 st = result_area_2 s ->
  half_life_published' s s'.
Proof.
  intros [| |tau ier|tau ier p] H1 H2.
  - left. now split.
  - left. now split.
  - right. exists tau. now split.
  - right. exists tau. now split.
Qed.

(** C10. After a call of either trigger the first two published values are
    those of before the call, or they are [fmt4 tau] and
    [fmt4 (tau * log_2)] for one and the same tau: a half-life is never
    published without the tau it was computed from. *)
Theorem published_half_life_is_tau_log_2 (s : State) :
  half_life_published' s (snd (fit_curve' s))
  /\ half_life_published' s (snd (fake_fit_curve' s)).
Proof.
  split.
  - destruct (fit_curve_outcome s) as (st & Hout & H1 & H2).
    exact (outcome_half_life s st _ Hout H1 H2).
  - destruct (fake_fit_curve_outcome s) as (st & Hout & H1 & H2).
    exact (outcome_half_life s st _ Hout H1 H2).
Qed.

End ControllerFacts.

(** ** The controller on the concrete page *)

(** C1 as stated does not hold: on [page_reselected] the rectangle differs
    from the stored one and selects nothing, the notice is shown, and the
    stored previous rectangle is no longer what it was. *)
Lemma fit_curve_empty_selection_overwrites_previous :
  range_data page_reselected = Some view_none
  /\ old_range_data page_reselected = Some view_all
  /\ select_points decay_x decay_y 0 5 1000 2000 = Return ([], [])
  /\ fst (demo_fit_curve page_reselected) = Return tt
  /\ alerts (snd (demo_fit_curve page_reselected)) = [NO_DATA]
  /\ old_range_data (snd (demo_fit_curve page_reselected))
     = Some view_none
  /\ old_range_data (snd (demo_fit_curve page_reselected))
     <> old_range_data page_reselected.
Proof.
  repeat split; try reflexivity.
  vm_compute. discriminate.
Qed.

Lemma fit_curve_empty_selection_witness :
  old_range_data page_reselected <> Some view_none
  /\ demo_fit_curve page_reselected
     = (Return tt,
        with_alert NO_DATA
          (with_old_range_data view_none page_reselected)).
Proof.
  assert (Hold : old_range_data page_reselected <> Some view_none)
    by (vm_compute; discriminate).
  split; [exact Hold|].
  exact (fit_curve_empty_selection
           exp_approx LOG_2 format_4f initial_guess_optimizer
           page_reselected view_none
           0 5 1000 2000 0 5 1000 2000 []
           eq_refl Hold eq_refl eq_refl eq_refl).
Defined.

(** C2 as stated does not hold: on [page_before_reset] the reset trigger
    passes its change check and selects nothing; it returns without a
    notice, and the stored previous rectangle has become the extent of the
    series. *)
Lemma fake_fit_curve_empty_selection_overwrites_previous :
  old_range_data page_before_reset = Some view_none
  /\ data_extent decay_x decay_y = Return (0, 5, 100, 8)
  /\ same_int_bounds no_points (0, 5, 100, 8) = false
  /\ select_points decay_x decay_y 0 5 1000 2000 = Return ([], [])
  /\ fst (demo_fake_fit_curve page_before_reset) = Return tt
  /\ alerts (snd (demo_fake_fit_curve page_before_reset)) = []
  /\ old_range_data (snd (demo_fake_fit_curve page_before_reset))
     = Some (PyList (0, 5, 100, 8))
  /\ old_range_data (snd (demo_fake_fit_curve page_before_reset))
     <> old_range_data page_before_reset.
Proof.
  repeat split; try reflexivity.
  vm_compute. discriminate.
Qed.

Lemma fake_fit_curve_empty_selection_witness :
  same_int_bounds no_points (0, 5, 100, 8) = false
  /\ demo_fake_fit_curve page_before_reset
     = (Return tt,
        with_old_range_data (PyList (0, 5, 100, 8)) page_before_reset).
Proof.
  split; [reflexivity|].
  exact (fake_fit_curve_empty_selection
           exp_approx LOG_2 format_4f initial_guess_optimizer
           three_entry_guess
           page_before_reset view_none view_none
           0 5 1000 2000 0 5 1000 2000 (0, 5, 100, 8) []
           eq_refl eq_refl eq_refl eq_refl eq_refl eq_refl eq_refl).
Defined.

(** The specification's example: a reset on a series of extent
    [(10.1, 50.2, 0, 100)], then one on a series of extent
    [(10.4, 50.9, 0, 100)]. *)
Lemma fake_fit_curve_same_integer_bounds_noop_witness :
  old_range_data
    (snd (demo_fake_fit_curve
            (two_samples [101 # 10; 502 # 10] view_all)))
  = Some (PyList (101 # 10, 502 # 10, 0, 100))
  /\ demo_fake_fit_curve
       (two_samples [104 # 10; 509 # 10]
                    (PyList (101 # 10, 502 # 10, 0, 100)))
     = (Return tt,
        two_samples [104 # 10; 509 # 10]
                    (PyList (101 # 10, 502 # 10, 0, 100))).
Proof.
  split; [reflexivity|].
  refine (proj2
            (fake_fit_curve_same_integer_bounds_noop
               exp_approx LOG_2 format_4f initial_guess_optimizer
               three_entry_guess
               (two_samples [104 # 10; 509 # 10]
                            (PyList (101 # 10, 502 # 10, 0, 100)))
               view_all (104 # 10, 509 # 10, 0, 100)
               eq_refl eq_refl)
            (two_samples [101 # 10; 502 # 10] view_all)
            view_all (101 # 10, 502 # 10, 0, 100)
            eq_refl _ eq_refl eq_refl eq_refl).
  intros o Ho. injection Ho as <-. discriminate.
Defined.

(** The manual trigger twice on the page with every sample selected. *)
Lemma fit_curve_same_rectangle_noop_witness :
  range_data (page (Some view_all) None)
  = Some view_all
  /\ demo_fit_curve
       (snd (demo_fit_curve (page (Some view_all) None)))
     = (Return tt,
        snd (demo_fit_curve (page (Some view_all) None))).
Proof.
  split; [reflexivity|].
  exact (proj1 (proj2
           (fit_curve_same_rectangle_noop
              exp_approx LOG_2 format_4f initial_guess_optimizer
              (page (Some view_all) None)
              (snd (demo_fit_curve (page (Some view_all) None)))
              view_all
              (fst (demo_fit_curve (page (Some view_all) None)))
              eq_refl
              (surjective_pairing
                 (demo_fit_curve (page (Some view_all) None)))))).
Defined.

(** The reset trigger on [page_reselected]: the current rectangle selects
    nothing, the previous one every sample, and the fitted curve is drawn
    over every sample. *)
Lemma fake_fit_curve_selects_from_previous_witness :
  same_int_bounds all_points (0, 5, 100, 8) = false
  /\ old_range_data (snd (demo_fake_fit_curve page_reselected))
     = Some (PyList (0, 5, 100, 8))
  /\ option_map x_for_line (graph_area (snd (demo_fake_fit_curve page_reselected)))
     = Some decay_x.
Proof.
  split; [reflexivity|].
  destruct (fake_fit_curve_selects_from_previous
              exp_approx LOG_2 format_4f initial_guess_optimizer
              three_entry_guess
              page_reselected view_none view_all
              0 5 0 100 0 5 0 100 (0, 5, 100, 8)
              eq_refl eq_refl eq_refl eq_refl eq_refl eq_refl)
    as (Hrun & Hold & _).
  split; [exact Hold|].
  unfold demo_fake_fit_curve. rewrite Hrun. reflexivity.
Defined.


(** ** More on the selection loop *)

(** The loop on a series whose [yList] is at least as long as [xList]:
    the surplus of [yList] is never read. *)
Lemma for_range_select_le (xs ys : list Q) (x0 x1 y0 y1 : Q) :
  forall (pre_x pre_y : list Q) (acc : list Q * list Q),
  length pre_x = length pre_y ->
  (length xs <= length ys)%nat ->
  for_range (select_step (pre_x ++ xs) (pre_y ++ ys) x0 x1 y0 y1)
            (seq (length pre_x) (length xs)) acc
  = Return (fst acc ++ map fst (select_spec (combine xs ys) (x0, x1, y0, y1)),
            snd acc ++ map snd (select_spec (combine xs ys) (x0, x1, y0, y1))).
Proof.
  revert ys. induction xs as [|x xs IH]; intros ys pre_x pre_y acc Hpre Hlen.
  - simpl. rewrite !app_nil_r. destruct acc; reflexivity.
  - destruct ys as [|y ys]; [simpl in Hlen; lia|].
    simpl seq. simpl for_range.
    rewrite select_step_as_filter by assumption.
    replace (pre_x ++ x :: xs) with ((pre_x ++ [x]) ++ xs)
      by (rewrite <- app_assoc; reflexivity).
    replace (pre_y ++ y :: ys) with ((pre_y ++ [y]) ++ ys)
      by (rewrite <- app_assoc; reflexivity).
    replace (S (length pre_x)) with (length (pre_x ++ [x]))
      by (rewrite length_app; simpl; lia).
    rewrite IH.
    + unfold select_spec. cbn [combine filter].
      destruct (in_rectb (x0, x1, y0, y1) (x, y)); cbn [fst snd map].
      * rewrite <- !app_assoc. reflexivity.
      * reflexivity.
    + rewrite !length_app. simpl. lia.
    + simpl in Hlen. lia.
Qed.

Lemma select_points_refines_le (xs ys : list Q) (x0 x1 y0 y1 : Q) :
  (length xs <= length ys)%nat ->
  select_points xs ys x0 x1 y0 y1
  = Return (map fst (select_spec (combine xs ys) (x0, x1, y0, y1)),
            map snd (select_spec (combine xs ys) (x0, x1, y0, y1))).
Proof.
  intro Hlen. unfold select_points.
  exact (for_range_select_le xs ys x0 x1 y0 y1 [] [] ([], []) eq_refl Hlen).
Qed.

(** The loop on a series whose [yList] is shorter than [xList] reaches an
    index that [yList] does not have. *)
Lemma for_range_select_short (xs ys : list Q) (x0 x1 y0 y1 : Q) :
  forall (pre_x pre_y : list Q) (acc : list Q * list Q),
  length pre_x = length pre_y ->
  (length ys < length xs)%nat ->
  for_range (select_step (pre_x ++ xs) (pre_y ++ ys) x0 x1 y0 y1)
            (seq (length pre_x) (length xs)) acc
  = Raise IndexError.
Proof.
  revert ys. induction xs as [|x xs IH]; intros ys pre_x pre_y acc Hpre Hlen.
  - simpl in Hlen. lia.
  - simpl seq. simpl for_range. destruct ys as [|y ys].
    + unfold select_step, getitem.
      rewrite nth_error_app2 by lia. rewrite Nat.sub_diag.
      rewrite app_nil_r.
      replace (nth_error pre_y (length pre_x)) with (@None Q)
        by (symmetry; apply nth_error_None; lia).
      reflexivity.
    + rewrite select_step_as_filter by assumption.
      replace (pre_x ++ x :: xs) with ((pre_x ++ [x]) ++ xs)
        by (rewrite <- app_assoc; reflexivity).
      replace (pre_y ++ y :: ys) with ((pre_y ++ [y]) ++ ys)
        by (rewrite <- app_assoc; reflexivity).
      replace (S (length pre_x)) with (length (pre_x ++ [x]))
        by (rewrite length_app; simpl; lia).
      apply IH.
      * rewrite !length_app. simpl. lia.
      * simpl in Hlen. lia.
Qed.

(** X1. The selection loop reads [yList[i]] for every index of [xList]:
    it raises [IndexError] exactly when [yList] is shorter than [xList],
    returns otherwise, and then the entries of [yList] past the length of
    [xList] play no part. *)
Theorem select_points_length_mismatch (xs ys : list Q) (x0 x1 y0 y1 : Q) :
  (select_points xs ys x0 x1 y0 y1 = Raise IndexError
   <-> (length ys < length xs)%nat)
  /\ ((exists sel, select_points xs ys x0 x1 y0 y1 = Return sel)
      <-> (length xs <= length ys)%nat)
  /\ (forall surplus : list Q,
        (length xs <= length ys)%nat ->
        select_points xs (ys ++ surplus) x0 x1 y0 y1
        = select_points xs ys x0 x1 y0 y1).
Proof.
  assert (Hle : forall ys' : list Q, (length xs <= length ys')%nat ->
                select_points xs ys' x0 x1 y0 y1
                = Return (map fst (select_spec (combine xs ys') (x0, x1, y0, y1)),
                          map snd (select_spec (combine xs ys') (x0, x1, y0, y1)))).
  { intros ys' H. exact (select_points_refines_le xs ys' x0 x1 y0 y1 H). }
  assert (Hlt : (length ys < length xs)%nat ->
                select_points xs ys x0 x1 y0 y1 = Raise IndexError).
  { intro H. exact (for_range_select_short xs ys x0 x1 y0 y1 [] [] ([], [])
                      eq_refl H). }
  split; [|split].
  - split; [|exact Hlt].
    intro Hraise. destruct (Nat.lt_ge_cases (length ys) (length xs)) as [H|H];
      [exact H|]. rewrite (Hle ys H) in Hraise. discriminate.
  - split.
    + intros [sel Hsel].
      destruct (Nat.lt_ge_cases (length ys) (length xs)) as [H|H]; [|exact H].
      rewrite (Hlt H) in Hsel. discriminate.
    + intro H. eexists. exact (Hle ys H).
  - intros surplus H.
    rewrite (Hle ys H).
    rewrite (Hle (ys ++ surplus)) by (rewrite length_app; lia).
    replace (combine xs (ys ++ surplus)) with (combine xs ys); [reflexivity|].
    clear - H. revert ys H. induction xs as [|x xs IH]; intros [|y ys] H;
      simpl in *; try reflexivity; try lia.
    f_equal. apply IH. lia.
Qed.

(** X2. A rectangle whose bounds are the wrong way round on either axis
    selects nothing: the loop relies on [ensure_normal_range] having run. *)
Theorem select_points_swapped_bounds_empty (xs ys : list Q) (x0 x1 y0 y1 : Q) :
  (length xs <= length ys)%nat ->
  x1 < x0 \/ y1 < y0 ->
  select_points xs ys x0 x1 y0 y1 = Return ([], []).
Proof.
  intros Hlen Hswap.
  rewrite (select_points_refines_le xs ys x0 x1 y0 y1 Hlen).
  unfold select_spec. rewrite filter_none; [reflexivity|].
  intros [x y] _. destruct (in_rectb (x0, x1, y0, y1) (x, y)) eqn:E;
    [|reflexivity].
  apply in_rectb_iff in E. destruct E as [[Hx0 Hx1] [Hy0 Hy1]]. simpl in *.
  exfalso. destruct Hswap as [H|H].
  - exact (Qlt_not_le _ _ H (Qle_trans _ _ _ Hx0 Hx1)).
  - exact (Qlt_not_le _ _ H (Qle_trans _ _ _ Hy0 Hy1)).
Qed.

Lemma select_points_swapped_bounds_empty_witness :
  select_points decay_x decay_y 5 0 0 100 = Return ([], [])
  /\ select_points decay_x decay_y 0 5 0 100 = Return (decay_x, decay_y).
Proof.
  split; [|reflexivity].
  apply select_points_swapped_bounds_empty; [simpl; lia | left; reflexivity].
Defined.

(** Two rectangles with equal bounds (as numbers) drive the loop alike. *)
Lemma select_step_bounds_eq (xs ys : list Q) (x0 x1 y0 y1 x0' x1' y0' y1' : Q)
    (acc : list Q * list Q) (i : nat) :
  x0 == x0' -> x1 == x1' -> y0 == y0' -> y1 == y1' ->
  select_step xs ys x0 x1 y0 y1 acc i = select_step xs ys x0' x1' y0' y1' acc i.
Proof.
  intros Hx0 Hx1 Hy0 Hy1. unfold select_step, rbind.
  destruct (getitem xs i) as [x|e]; [|reflexivity].
  destruct (getitem ys i) as [y|e]; [|reflexivity].
  unfold gtb, ltb.
  rewrite (Qleb_comp x0 x0' Hx0 x x (Qeq_refl x)).
  rewrite (Qleb_comp x x (Qeq_refl x) x1 x1' Hx1).
  rewrite (Qleb_comp y0 y0' Hy0 y y (Qeq_refl y)).
  rewrite (Qleb_comp y y (Qeq_refl y) y1 y1' Hy1).
  reflexivity.
Qed.

Lemma for_range_ext {A : Type} (body body' : A -> nat -> result A)
    (idx : list nat) :
  (forall acc i, body acc i = body' acc i) ->
  forall acc, for_range body idx acc = for_range body' idx acc.
Proof.
  intro Hext. induction idx as [|i idx IH]; intro acc; simpl; [reflexivity|].
  rewrite Hext. destruct (body' acc i); [apply IH | reflexivity].
Qed.

(** One axis, corners in either order: the same bounds come out. *)
Lemma swap_if_greater_sym (a b : Q) :
  fst (if gtb a b then (b, a) else (a, b))
  == fst (if gtb b a then (a, b) else (b, a))
  /\ snd (if gtb a b then (b, a) else (a, b))
     == snd (if gtb b a then (a, b) else (b, a)).
Proof.
  destruct (gtb a b) eqn:Eab, (gtb b a) eqn:Eba; simpl.
  - apply gtb_true_iff in Eab, Eba. exfalso.
    exact (Qlt_irrefl _ (Qlt_trans _ _ _ Eab Eba)).
  - split; reflexivity.
  - split; reflexivity.
  - apply gtb_false_iff in Eab, Eba.
    pose proof (Qle_antisym _ _ Eab Eba) as H. split; [exact H | symmetry; exact H].
Qed.

(** X3. Normalising and then selecting does not depend on the order in
    which the two corners of the rectangle arrive: swapping the x bounds,
    the y bounds or both gives the same selection (or the same
    exception). *)
Theorem selection_ignores_corner_order (xs ys : list Q) (x0 x1 y0 y1 : Q) :
  let select := fun r : rect =>
    let '(a, b, c, d) := r in select_points xs ys a b c d in
  select (ensure_normal_range x1 x0 y0 y1)
  = select (ensure_normal_range x0 x1 y0 y1)
  /\ select (ensure_normal_range x0 x1 y1 y0)
     = select (ensure_normal_range x0 x1 y0 y1)
  /\ select (ensure_normal_range x1 x0 y1 y0)
     = select (ensure_normal_range x0 x1 y0 y1).
Proof.
  cbv zeta. unfold ensure_normal_range.
  destruct (swap_if_greater_sym x0 x1) as [Hx Hx'].
  destruct (swap_if_greater_sym y0 y1) as [Hy Hy'].
  destruct (if gtb x0 x1 then (x1, x0) else (x0, x1)) as [a b].
  destruct (if gtb x1 x0 then (x0, x1) else (x1, x0)) as [a' b'].
  destruct (if gtb y0 y1 then (y1, y0) else (y0, y1)) as [c d].
  destruct (if gtb y1 y0 then (y0, y1) else (y1, y0)) as [c' d'].
  simpl in Hx, Hx', Hy, Hy'. unfold select_points.
  repeat split; apply for_range_ext; intros acc i;
    apply select_step_bounds_eq;
    first [reflexivity | assumption | symmetry; assumption].
Qed.

Lemma filter_implies_subsequence {A : Type} (f g : A -> bool) (l : list A) :
  (forall a, f a = true -> g a = true) ->
  subsequence (filter f l) (filter g l).
Proof.
  intro Himp. induction l as [|a l IH]; simpl; [constructor|].
  destruct (f a) eqn:Ef.
  - rewrite (Himp a Ef). apply subseq_keep. exact IH.
  - destruct (g a); [apply subseq_skip|]; exact IH.
Qed.

(** X4. Widening the rectangle never loses a point: the selection of a
    rectangle is a subsequence of the selection of any rectangle that
    contains it. *)
Theorem select_points_monotone (xs ys : list Q)
    (x0 x1 y0 y1 x0' x1' y0' y1' : Q) :
  (length xs <= length ys)%nat ->
  x0' <= x0 -> x1 <= x1' -> y0' <= y0 -> y1 <= y1' ->
  exists sel sel' : list (Q * Q),
    select_points xs ys x0 x1 y0 y1 = Return (map fst sel, map snd sel)
    /\ select_points xs ys x0' x1' y0' y1' = Return (map fst sel', map snd sel')
    /\ subsequence sel sel'.
Proof.
  intros Hlen Hx0 Hx1 Hy0 Hy1.
  exists (select_spec (combine xs ys) (x0, x1, y0, y1)),
         (select_spec (combine xs ys) (x0', x1', y0', y1')).
  split; [|split].
  - exact (select_points_refines_le xs ys x0 x1 y0 y1 Hlen).
  - exact (select_points_refines_le xs ys x0' x1' y0' y1' Hlen).
  - apply filter_implies_subsequence. intros p Hp.
    apply in_rectb_iff in Hp. apply in_rectb_iff.
    destruct Hp as [[H1 H2] [H3 H4]].
    repeat split; eapply Qle_trans; eassumption.
Qed.

Lemma select_points_monotone_witness :
  exists sel sel' : list (Q * Q),
    select_points decay_x decay_y 1 4 13 60
    = Return (map fst sel, map snd sel)
    /\ select_points decay_x decay_y 0 5 0 100
       = Return (map fst sel', map snd sel')
    /\ subsequence sel sel'.
Proof.
  apply select_points_monotone; first [simpl; lia | discriminate].
Defined.

(** ** More on the two triggers *)

Section TriggerFacts.

Variable np_exp : Q -> Q.
Variable log_2 : Q.
Variable fmt4 : Q -> string.
Variable leastsq :
  (list Q -> list Q -> result (list Q)) ->
  list Q -> list Q -> list Q -> result (list Q * Z).
Variable reset_guess : list Q -> list Q -> result (list Q).

Local Abbreviation fake_fit_selection' :=
  (fake_fit_selection np_exp log_2 fmt4 leastsq reset_guess).
Local Abbreviation fit_selection' := (fit_selection np_exp log_2 fmt4 leastsq).
Local Abbreviation fake_fit_curve' :=
  (fake_fit_curve np_exp log_2 fmt4 leastsq reset_guess).
Local Abbreviation fit_curve' := (fit_curve np_exp log_2 fmt4 leastsq).

(** Where a manual-trigger call stands when it leaves the change check:
    the page [st] is the page it started from, but for the previous
    rectangle. *)
Lemma fit_curve_run (s : State) :
  (range_data s = None
   /\ fit_curve' s = (Return tt, with_alert NO_RANGE s))
  \/ (range_data s <> None
      /\ exists st,
           (st = s \/ exists v, st = with_old_range_data v s)
           /\ (fit_curve' s = (Return tt, st)
               \/ (exists e, fit_curve' s = (Raise e, st))
               \/ exists a b c d sel,
                    fit_curve' s = fit_selection' a b c d sel st)).
Proof.
  unfold fit_curve, bind, gets, ret, lift, modify, alert.
  destruct (range_data s) as [v|]; [right | left; split; reflexivity].
  split; [discriminate|].
  destruct (old_range_data s) as [o|];
    [ destruct (operator_eq o v) | destruct (operator_eq PyNone v) ].
  1: { exists s. split; [now left | now left]. }
  2: { exists (with_old_range_data PyNone s).
       split; [right; now exists PyNone | now left]. }
  all: exists (with_old_range_data v s); split; [right; now exists v|].
  all: destruct (floats v) as [[[[x0 x1] y0] y1]|e];
    [|right; left; exists e; reflexivity].
  all: destruct (ensure_normal_range x0 x1 y0 y1) as [[[x2 x3] y2] y3].
  all: cbn [xList yList with_old_range_data].
  all: destruct (select_points (xList s) (yList s) x2 x3 y2 y3) as [sel|e];
    [|right; left; exists e; reflexivity].
  all: right; right; exists x2, x3, y2, y3, sel; reflexivity.
Qed.

(** The same for the reset trigger; its early return and its notice leave
    the page as it was. *)
Lemma fake_fit_curve_run (s : State) :
  (range_data s = None
   /\ fake_fit_curve' s = (Return tt, with_alert NO_RANGE s))
  \/ (range_data s <> None
      /\ exists st,
           (st = s \/ exists v, st = with_old_range_data v s)
           /\ (fake_fit_curve' s = (Return tt, st)
               \/ (exists e, fake_fit_curve' s = (Raise e, st))
               \/ exists sel, fake_fit_curve' s = fake_fit_selection' sel st)).
Proof.
  unfold fake_fit_curve, bind, gets, ret, lift, modify, alert.
  destruct (range_data s) as [v|]; [right | left; split; reflexivity].
  split; [discriminate|].
  destruct (old_range_data s) as [o|];
    [|exists s; split; [now left | now left]].
  destruct (floats o) as [[[[x0 x1] y0] y1]|e];
    [|exists s; split; [now left | right; left; exists e; reflexivity]].
  destruct (data_extent (xList s) (yList s)) as [[[[fx0 fx1] fy0] fy1]|e];
    [|exists s; split; [now left | right; left; exists e; reflexivity]].
  destruct (same_int_bounds _ _);
    [exists s; split; [now left | now left]|].
  exists (with_old_range_data (PyList (fx0, fx1, fy0, fy1)) s).
  split; [right; eexists; reflexivity|].
  destruct (ensure_normal_range x0 x1 y0 y1) as [[[x2 x3] y2] y3].
  destruct (select_points (xList s) (yList s) x2 x3 y2 y3) as [sel|e];
    [|right; left; exists e; reflexivity].
  right; right; exists sel; reflexivity.
Qed.

(** Steps 3 and 4 of the manual trigger: the notice, or an exception
    before anything is written. *)
Lemma fit_selection_run (x0 x1 y0 y1 : Q) (sel : list Q * list Q) (s : State) :
  fit_selection' x0 x1 y0 y1 sel s = (Return tt, with_alert NO_DATA s)
  \/ fit_selection' x0 x1 y0 y1 sel s = (Raise IndexError, s).
Proof.
  destruct sel as [[|x xsel] ysel]; [left; reflexivity|].
  right. destruct ysel; reflexivity.
Qed.

(** X5. The manual trigger never publishes: on every page, whatever the
    selection, the series and the optimizer, a call leaves the warning
    flag, the three result fields and the graph as they were. *)
Theorem fit_curve_never_publishes (s : State) :
  hint_area (snd (fit_curve' s)) = hint_area s
  /\ result_area_1 (snd (fit_curve' s)) = result_area_1 s
  /\ result_area_2 (snd (fit_curve' s)) = result_area_2 s
  /\ result_area_3 (snd (fit_curve' s)) = result_area_3 s
  /\ graph_area (snd (fit_curve' s)) = graph_area s.
Proof.
  destruct (fit_curve_run s) as [[_ ->] | (_ & st & Hst & Hrun)];
    [repeat split|].
  assert (Hsame : hint_area st = hint_area s
                  /\ result_area_1 st = result_area_1 s
                  /\ result_area_2 st = result_area_2 s
                  /\ result_area_3 st = result_area_3 s
                  /\ graph_area st = graph_area s).
  { destruct Hst as [-> | [v ->]]; repeat split. }
  destruct Hrun as [-> | [[e ->] | (a & b & c & d & sel & ->)]];
    [exact Hsame | exact Hsame |].
  destruct (fit_selection_run a b c d sel st) as [-> | ->]; exact Hsame.
Qed.

(** X6. Neither trigger writes the series or the current rectangle: after
    any call [xList], [yList] and [window.range_data] are what they
    were. *)
Theorem triggers_keep_series_and_selection (s : State) :
  (xList (snd (fit_curve' s)) = xList s
   /\ yList (snd (fit_curve' s)) = yList s
   /\ range_data (snd (fit_curve' s)) = range_data s)
  /\ (xList (snd (fake_fit_curve' s)) = xList s
      /\ yList (snd (fake_fit_curve' s)) = yList s
      /\ range_data (snd (fake_fit_curve' s)) = range_data s).
Proof.
  split.
  - destruct (fit_curve_run s) as [[_ ->] | (_ & st & Hst & Hrun)];
      [repeat split|].
    assert (Hsame : xList st = xList s /\ yList st = yList s
                    /\ range_data st = range_data s)
      by (destruct Hst as [-> | [v ->]]; repeat split).
    destruct Hrun as [-> | [[e ->] | (a & b & c & d & sel & ->)]];
      [exact Hsame | exact Hsame |].
    destruct (fit_selection_run a b c d sel st) as [-> | ->]; exact Hsame.
  - destruct (fake_fit_curve_run s)
      as [[_ ->] | (_ & st & Hst & Hrun)]; [repeat split|].
    assert (Hsame : xList st = xList s /\ yList st = yList s
                    /\ range_data st = range_data s)
      by (destruct Hst as [-> | [v ->]]; repeat split).
    destruct Hrun as [-> | [[e ->] | (sel & ->)]];
      [exact Hsame | exact Hsame |].
    destruct (outcome_frame log_2 fmt4 _ _
                (fake_fit_selection_outcome np_exp log_2 fmt4 leastsq reset_guess sel st))
      as (Hr & _ & Hx & Hy).
    destruct Hsame as (Hx' & Hy' & Hr'). repeat split; congruence.
Qed.

(** Steps 3 and 4 of the reset trigger show no notice. *)
Lemma fake_fit_selection_silent (sel : list Q * list Q) (s : State) :
  alerts (snd (fake_fit_selection' sel s)) = alerts s.
Proof.
  destruct sel as [xsel ysel]. unfold fake_fit_selection.
  destruct (length xsel =? 0)%nat; [reflexivity|].
  unfold bind, lift, gets, my_plot, modify.
  repeat match goal with
  | |- context [publish _ _ _ _ _] => rewrite publish_run
  | |- context [match ?r with Return _ => _ | Raise _ => _ end] =>
      destruct r as [?|?]
  | |- context [let '(_, _) := ?p in _] => destruct p
  end; reflexivity.
Qed.

(** X7. The notices. The reset trigger shows a notice on a page without a
    selection and on no other page, whatever else happens in the call; a
    manual-trigger call shows the "select a range" notice exactly on a
    page without a selection, and otherwise no notice or the "no data"
    one. *)
Theorem trigger_notices (s : State) :
  alerts (snd (fake_fit_curve' s))
  = match range_data s with
    | None => alerts s ++ [NO_RANGE]
    | Some _ => alerts s
    end
  /\ match range_data s with
     | None => alerts (snd (fit_curve' s)) = alerts s ++ [NO_RANGE]
     | Some _ => alerts (snd (fit_curve' s)) = alerts s
                 \/ alerts (snd (fit_curve' s)) = alerts s ++ [NO_DATA]
     end.
Proof.
  split.
  - destruct (fake_fit_curve_run s)
      as [[Hnone ->] | (Hsome & st & Hst & Hrun)].
    + rewrite Hnone. reflexivity.
    + destruct (range_data s) as [v|]; [|contradiction].
      assert (Hsame : alerts st = alerts s)
        by (destruct Hst as [-> | [w ->]]; reflexivity).
      destruct Hrun as [-> | [[e ->] | (sel & ->)]];
        [exact Hsame | exact Hsame |].
      rewrite fake_fit_selection_silent. exact Hsame.
  - destruct (fit_curve_run s)
      as [[Hnone ->] | (Hsome & st & Hst & Hrun)].
    + rewrite Hnone. reflexivity.
    + destruct (range_data s) as [v|]; [|contradiction].
      assert (Hsame : alerts st = alerts s)
        by (destruct Hst as [-> | [w ->]]; reflexivity).
      destruct Hrun as [-> | [[e ->] | (a & b & c & d & sel & ->)]];
        [left; exact Hsame | left; exact Hsame |].
      destruct (fit_selection_run a b c d sel st) as [-> | ->];
        [right | left]; cbn [snd alerts with_alert]; congruence.
Qed.

(** X8. A reset re-arms the manual trigger. After a reset-trigger call
    that passed its change check the stored previous rectangle is a Python
    list, which no JavaScript array equals: the next manual-trigger call
    on the very same selection is not stopped by its change check, it
    stores the selection again and goes on to select. *)
Theorem reset_rearms_manual_trigger (s : State) (i : nat) (r : rect)
    (prev : jsval) (x0 x1 y0 y1 : Q) (ext : rect) :
  range_data s = Some (JsArray i r) ->
  old_range_data s = Some prev ->
  floats prev = Return (x0, x1, y0, y1) ->
  data_extent (xList s) (yList s) = Return ext ->
  same_int_bounds (x0, x1, y0, y1) ext = false ->
  old_range_data (snd (fake_fit_curve' s)) = Some (PyList ext)
  /\ old_range_data (snd (fit_curve' (snd (fake_fit_curve' s))))
     = Some (JsArray i r)
  /\ fit_curve' (snd (fake_fit_curve' s))
     <> (Return tt, snd (fake_fit_curve' s)).
Proof.
  intros Hcur Hold Hprev Hext Hsame.
  assert (Hstored : old_range_data (snd (fake_fit_curve' s))
                    = Some (PyList ext)).
  { destruct (ensure_normal_range x0 x1 y0 y1) as [[[x2 x3] y2] y3] eqn:Hn.
    rewrite (fake_fit_curve_gate_open np_exp log_2 fmt4 leastsq reset_guess s
               (JsArray i r) prev x0 x1 y0 y1 x2 x3 y2 y3 ext)
      by assumption.
    unfold bind, lift.
    destruct (select_points _ _ x2 x3 y2 y3) as [sel|e]; [|reflexivity].
    destruct (outcome_frame log_2 fmt4 _ _
                (fake_fit_selection_outcome np_exp log_2 fmt4 leastsq reset_guess sel
                   (with_old_range_data (PyList ext) s))) as (_ & Ho & _).
    exact Ho. }
  assert (Hrange : range_data (snd (fake_fit_curve' s)) = Some (JsArray i r)).
  { destruct (fake_fit_curve_run s) as [[Hnone _] | (_ & st & Hst & Hrun)];
      [congruence|].
    assert (Hsame' : range_data st = range_data s)
      by (destruct Hst as [-> | [w ->]]; reflexivity).
    destruct Hrun as [-> | [[e ->] | (sel & ->)]];
      [cbn [snd]; congruence | cbn [snd]; congruence |].
    destruct (outcome_frame log_2 fmt4 _ _
                (fake_fit_selection_outcome np_exp log_2 fmt4 leastsq reset_guess sel st))
      as (Hr & _).
    congruence. }
  destruct (fit_curve_stores_rectangle np_exp log_2 fmt4 leastsq
              (snd (fake_fit_curve' s)) (JsArray i r) Hrange) as (_ & Hnew).
  split; [exact Hstored|]. split; [exact Hnew|].
  intro Hnoop. rewrite Hnoop in Hnew. cbn [snd] in Hnew.
  rewrite Hstored in Hnew. discriminate.
Qed.

(** X9. An empty series. The reset trigger cannot take the extent of an
    empty series: it raises [IndexError] before it writes anything. The
    manual trigger selects nothing from it and shows the "no data"
    notice. *)
Theorem triggers_on_empty_series (s : State) (v prev : jsval) (r rp : rect) :
  xList s = [] ->
  range_data s = Some v ->
  floats v = Return r ->
  old_range_data s = Some prev ->
  floats prev = Return rp ->
  fake_fit_curve' s = (Raise IndexError, s)
  /\ (prev <> v ->
      fit_curve' s
      = (Return tt, with_alert NO_DATA (with_old_range_data v s))).
Proof.
  intros Hx Hcur Hv Hold Hprev. split.
  - destruct rp as [[[a b] c] d].
    unfold fake_fit_curve, bind, gets, lift.
    rewrite Hcur, Hold, Hprev. cbv beta iota. rewrite Hx. reflexivity.
  - intro Hneq. destruct r as [[[x0 x1] y0] y1].
    destruct (ensure_normal_range x0 x1 y0 y1) as [[[x2 x3] y2] y3] eqn:Hn.
    rewrite (fit_curve_gate_open np_exp log_2 fmt4 leastsq s v
               x0 x1 y0 y1 x2 x3 y2 y3) by (try assumption; congruence).
    unfold bind, lift. cbn [xList yList with_old_range_data].
    rewrite Hx. reflexivity.
Qed.

End TriggerFacts.

(** ** Loading a series *)

Section LoadingFacts.

Variable genfromtxt : string -> result ndarray.
Variable np_exp : Q -> Q.
Variable log_2 : Q.
Variable fmt4 : Q -> string.
Variable leastsq :
  (list Q -> list Q -> result (list Q)) ->
  list Q -> list Q -> list Q -> result (list Q * Z).

Local Abbreviation handle_csv_stringio' := (handle_csv_stringio genfromtxt).
Local Abbreviation fit_curve' := (fit_curve np_exp log_2 fmt4 leastsq).

Lemma handle_csv_stringio_two_columns (text : string) (xs ys : list Q)
    (s : State) :
  genfromtxt text = Return (Array2 [xs; ys]) ->
  handle_csv_stringio' text s
  = Ended (Return tt)
          (with_graph_area (mkPlot xs ys [] [] None None)
                           (with_series xs ys s)).
Proof.
  intro Hread. unfold handle_csv_stringio. rewrite Hread. reflexivity.
Qed.


(** X11. Loading a table replaces the series and redraws the graph without
    a fitted curve and without axis ranges, and nothing else: the warning
    flag and the three result fields still show the fit of the old series,
    and both stored rectangles stay, so that a manual-trigger call on the
    unchanged selection is stopped by its change check and leaves the
    page as the loader left it. *)
Theorem handle_csv_stringio_keeps_fit_state (text : string) (xs ys : list Q)
    (s : State) (v : jsval) :
  genfromtxt text = Return (Array2 [xs; ys]) ->
  range_data s = Some v ->
  old_range_data s = Some v ->
  exists s1,
    handle_csv_stringio' text s = Ended (Return tt) s1
    /\ xList s1 = xs /\ yList s1 = ys
    /\ graph_area s1 = Some (mkPlot xs ys [] [] None None)
    /\ hint_area s1 = hint_area s
    /\ result_area_1 s1 = result_area_1 s
    /\ result_area_2 s1 = result_area_2 s
    /\ result_area_3 s1 = result_area_3 s
    /\ range_data s1 = Some v /\ old_range_data s1 = Some v
    /\ fit_curve' s1 = (Return tt, s1).
Proof.
  intros Hread Hcur Hold.
  eexists. split; [exact (handle_csv_stringio_two_columns text xs ys s Hread)|].
  repeat split; try assumption.
  apply (fit_curve_gate_closed np_exp log_2 fmt4 leastsq _ v); assumption.
Qed.

End LoadingFacts.

Lemma handle_csv_stringio_keeps_fit_state_witness :
  one_file_reader decay_csv = Return (Array2 [decay_x; decay_y])
  /\ handle_csv_stringio one_file_reader decay_csv
       (two_samples [104 # 10; 509 # 10] view_all)
     = Ended (Return tt)
         (with_graph_area (mkPlot decay_x decay_y [] [] None None)
            (with_series decay_x decay_y
               (two_samples [104 # 10; 509 # 10] view_all)))
  /\ demo_fit_curve
       (with_graph_area (mkPlot decay_x decay_y [] [] None None)
          (with_series decay_x decay_y
             (two_samples [104 # 10; 509 # 10] view_all)))
     = (Return tt,
        with_graph_area (mkPlot decay_x decay_y [] [] None None)
          (with_series decay_x decay_y
             (two_samples [104 # 10; 509 # 10] view_all))).
Proof.
  split; [reflexivity|].
  destruct (handle_csv_stringio_keeps_fit_state
              one_file_reader exp_approx LOG_2 format_4f
              initial_guess_optimizer decay_csv decay_x decay_y
              (two_samples [104 # 10; 509 # 10] view_all) view_all
              eq_refl eq_refl eq_refl)
    as (s1 & Hrun & _ & _ & _ & _ & _ & _ & _ & _ & _ & Hfit).
  split; [reflexivity|].
  injection Hrun as <-. exact Hfit.
Defined.

Section TdfFacts.

Variable block : Type.
Variable get_directory : string -> list block.
Variable is_xycurve_block : block -> bool.
Variable next_block : block -> Curve.

Local Abbreviation read_block' := (read_block block is_xycurve_block next_block).
Local Abbreviation read_tdf_from_file' :=
  (read_tdf_from_file block get_directory is_xycurve_block next_block).

(** The loop over a directory, by its last XY-curve entry. *)
Lemma read_blocks_last (blocks : list block) (s : State) :
  fold_left read_block' blocks (None, s)
  = match find is_xycurve_block (rev blocks) with
    | Some b =>
        (Some (get_xaxis_title (next_block b), get_yaxis_title (next_block b),
               title (next_block b)),
         with_series (get_xvalues (next_block b)) (get_yvalues (next_block b)) s)
    | None => (None, s)
    end.
Proof.
  induction blocks as [|b blocks IH] using rev_ind; [reflexivity|].
  rewrite fold_left_app, rev_app_distr. cbn [fold_left rev app find].
  unfold read_block at 1. destruct (is_xycurve_block b); [|exact IH].
  rewrite IH. destruct (find is_xycurve_block (rev blocks)); reflexivity.
Qed.


End TdfFacts.

(** One axis of the normalised rectangle holds the values between the two
    corner coordinates. *)
Lemma swap_if_greater_between (a b v : Q) :
  (fst (if gtb a b then (b, a) else (a, b)) <= v
   /\ v <= snd (if gtb a b then (b, a) else (a, b)))
  <-> between a b v.
Proof.
  unfold between. destruct (gtb a b) eqn:E; simpl.
  - apply gtb_true_iff in E. split; [intro H; right; exact H|].
    intros [[H1 H2] | H]; [|exact H].
    exfalso. exact (Qlt_not_le _ _ E (Qle_trans _ _ _ H1 H2)).
  - apply gtb_false_iff in E. split; [intro H; left; exact H|].
    intros [H | [H1 H2]]; [exact H|].
    split; [exact (Qle_trans _ _ _ E H1) | exact (Qle_trans _ _ _ H2 E)].
Qed.

(** X13. The normalised rectangle is the rectangle spanned by the two
    corners: a point lies in it exactly when, on each axis, it lies
    between the two bounds given, in whichever order they were given. *)
Theorem ensure_normal_range_spans_corners (x0 x1 y0 y1 : Q) (p : Q * Q) :
  in_rect (ensure_normal_range x0 x1 y0 y1) p
  <-> between x0 x1 (fst p) /\ between y0 y1 (snd p).
Proof.
  rewrite <- (swap_if_greater_between x0 x1 (fst p)).
  rewrite <- (swap_if_greater_between y0 y1 (snd p)).
  unfold ensure_normal_range.
  destruct (if gtb x0 x1 then (x1, x0) else (x0, x1)) as [a b].
  destruct (if gtb y0 y1 then (y1, y0) else (y0, y1)) as [c d].
  reflexivity.
Qed.

(** The reset trigger and then the manual one on [page_reselected]. *)
Lemma reset_rearms_manual_trigger_witness :
  old_range_data (snd (demo_fake_fit_curve page_reselected))
  = Some (PyList (0, 5, 100, 8))
  /\ old_range_data
       (snd (demo_fit_curve (snd (demo_fake_fit_curve page_reselected))))
     = Some view_none.
Proof.
  destruct (reset_rearms_manual_trigger
              exp_approx LOG_2 format_4f initial_guess_optimizer
              three_entry_guess
              page_reselected 2%nat no_points view_all 0 5 0 100 (0, 5, 100, 8)
              eq_refl eq_refl eq_refl eq_refl eq_refl)
    as (Hstored & Hnew & _).
  split; [exact Hstored | exact Hnew].
Defined.

Lemma triggers_on_empty_series_witness :
  demo_fake_fit_curve empty_page = (Raise IndexError, empty_page)
  /\ demo_fit_curve empty_page
     = (Return tt, with_alert NO_DATA (with_old_range_data view_none empty_page)).
Proof.
  destruct (triggers_on_empty_series
              exp_approx LOG_2 format_4f initial_guess_optimizer
              three_entry_guess
              empty_page view_none view_all no_points all_points
              eq_refl eq_refl eq_refl eq_refl eq_refl)
    as (Hreset & Hmanual).
  split; [exact Hreset|]. apply Hmanual. discriminate.
Defined.

(** ** The tolerance of the reset trigger's change check *)

Lemma int_nonneg (x : Q) : 0 <= x -> int x = Qfloor x.
Proof.
  destruct x as [n d]. unfold Qle, int, Qfloor. simpl. intro H.
  apply Z.quot_div_nonneg; lia.
Qed.

Lemma int_nonpos (x : Q) : x <= 0 -> int x = Qceiling x.
Proof.
  destruct x as [n d]. unfold Qle, int, Qceiling, Qfloor. simpl. intro H.
  replace n with (- - n)%Z at 1 by lia.
  rewrite Z.quot_opp_l by lia. f_equal.
  apply Z.quot_div_nonneg; lia.
Qed.

(** [int(x)] lies within one unit of [x], on the side of zero. *)
Lemma int_within_unit (x : Q) :
  (0 <= x -> inject_Z (int x) <= x /\ x < inject_Z (int x) + 1)
  /\ (x <= 0 -> inject_Z (int x) - 1 < x /\ x <= inject_Z (int x)).
Proof.
  split; intro H.
  - rewrite (int_nonneg x H). split; [apply Qfloor_le|].
    pose proof (Qlt_floor x) as Hlt. rewrite inject_Z_plus in Hlt. exact Hlt.
  - rewrite (int_nonpos x H). split; [|apply Qle_ceiling].
    pose proof (Qceiling_lt x) as Hlt.
    unfold Z.sub in Hlt. rewrite inject_Z_plus in Hlt. exact Hlt.
Qed.

(** X14. What the reset trigger's change check tolerates: two bounds with
    the same [int(...)] differ by less than two units, and by less than
    one unit when they have the same sign; truncation towards zero makes
    the interval around zero twice as wide as the others. *)
Theorem int_equal_tolerance (a b : Q) :
  int a = int b ->
  Qabs (a - b) < 2
  /\ (0 <= a -> 0 <= b -> Qabs (a - b) < 1)
  /\ (a <= 0 -> b <= 0 -> Qabs (a - b) < 1).
Proof.
  intro Heq.
  destruct (int_within_unit a) as [Hap Han].
  destruct (int_within_unit b) as [Hbp Hbn].
  rewrite <- Heq in Hbp, Hbn.
  assert (Hcase : forall x, 0 <= x \/ x <= 0).
  { intro x. destruct (Qlt_le_dec x 0) as [H|H];
      [right; apply Qlt_le_weak; exact H | left; exact H]. }
  split; [|split].
  - apply Qabs_Qlt_condition.
    destruct (Hcase a) as [Ha|Ha], (Hcase b) as [Hb|Hb];
      try specialize (Hap Ha); try specialize (Han Ha);
      try specialize (Hbp Hb); try specialize (Hbn Hb); lra.
  - intros Ha Hb. apply Qabs_Qlt_condition.
    specialize (Hap Ha). specialize (Hbp Hb). lra.
  - intros Ha Hb. apply Qabs_Qlt_condition.
    specialize (Han Ha). specialize (Hbn Hb). lra.
Qed.

(** The bounds [-0.9] and [0.9] pass as unchanged; so do [10.1] and
    [10.4]. *)
Lemma int_equal_tolerance_witness :
  int (- (9 # 10)) = int (9 # 10)
  /\ Qabs ((101 # 10) - (104 # 10)) < 1.
Proof.
  split; [reflexivity|].
  destruct (int_equal_tolerance (101 # 10) (104 # 10) eq_refl)
    as (_ & Hpos & _).
  apply Hpos; discriminate.
Defined.
